(** * The Windows launcher stub [mover.cpp]

    A shallow embedding of the launcher that sits next to [mover.py]: it
    resolves its own path, derives the companion script path, picks an
    interpreter from the script's first line, builds a quoted command line,
    spawns the interpreter and relays its exit code.

    The operating system is an oracle ([OS]) that answers the Win32 and
    stream calls the program makes; the program itself runs in a small monad
    that records every such call and every write to the error stream, and
    that can throw the way the C++ code does. *)

From Stdlib Require Import String Ascii List ZArith Lia Bool Arith.
From Stdlib Require Import DecimalString.
Import ListNotations.
Local Open Scope string_scope.

(** ** Characters and constants of the source *)

Module Chars.

Definition tab : ascii := "009"%char.
Definition newline : ascii := "010"%char.
Definition space : ascii := " "%char.
Definition dquote : ascii := "034"%char.
Definition backslash : ascii := "\"%char.
Definition slash : ascii := "/"%char.
Definition nul : ascii := "000"%char.

End Chars.

(** [static const std::string SHEBANG = "#!";] *)
Definition SHEBANG : string := "#!".

(** [std::string extra_chars(" \t");] *)
Definition extra_chars : string := String Chars.space (String Chars.tab "").

(** Values of [<windows.h>]. *)
Module Win32.

Definition NO_ERROR : Z := 0.
Definition ERROR_FILE_NOT_FOUND : Z := 2.
Definition ERROR_PATH_NOT_FOUND : Z := 3.
Definition MAX_PATH : Z := 260.
Definition INVALID_FILE_ATTRIBUTES : Z := 4294967295.

(** A [DWORD] / [unsigned long] holds 32 bits. *)
Definition DWORD_range (z : Z) : Prop := (0 <= z < 2 ^ 32)%Z.

(** Conversion of an [unsigned long] to [int], as in [return exitCode;]
    from [main]: the value is kept modulo 2^32 in the signed range. *)
Definition to_int (z : Z) : Z := ((z + 2 ^ 31) mod 2 ^ 32 - 2 ^ 31)%Z.

(** The exit status the process reports for a value returned from [main]:
    the [int] is handed over as an unsigned 32-bit code. *)
Definition exit_status (ret : Z) : Z := (ret mod 2 ^ 32)%Z.

(** [%ld] applied to a [DWORD]: printed as a signed 32-bit decimal. *)
Definition format_ld (z : Z) : string :=
  NilZero.string_of_int (Z.to_int (to_int z)).

End Win32.

(** ** The [std::string] operations the launcher uses

    A position is a [nat]; [std::string::npos] is [None]. *)

Module StdString.

Fixpoint mem (c : ascii) (set : string) : bool :=
  match set with
  | EmptyString => false
  | String d set' => Ascii.eqb c d || mem c set'
  end.

(** [s.find(pat)]: the first position where [pat] occurs. *)
Fixpoint find (s pat : string) : option nat :=
  if String.prefix pat s then Some 0
  else match s with
       | EmptyString => None
       | String _ s' => option_map S (find s' pat)
       end.

(** [s.find_last_of(set)]: the last position holding a character of [set]. *)
Fixpoint find_last_of (s set : string) : option nat :=
  match s with
  | EmptyString => None
  | String c s' =>
      match find_last_of s' set with
      | Some i => Some (S i)
      | None => if mem c set then Some 0 else None
      end
  end.

(** [s.find_first_not_of(set)]. *)
Fixpoint find_first_not_of (s set : string) : option nat :=
  match s with
  | EmptyString => None
  | String c s' =>
      if mem c set then option_map S (find_first_not_of s' set) else Some 0
  end.

(** [s.find_last_not_of(set)]. *)
Fixpoint find_last_not_of (s set : string) : option nat :=
  match s with
  | EmptyString => None
  | String c s' =>
      match find_last_not_of s' set with
      | Some i => Some (S i)
      | None => if mem c set then None else Some 0
      end
  end.

(** The first [n] characters: [s.substr(0, n)], and what [s.erase(n)] leaves. *)
Fixpoint take (n : nat) (s : string) : string :=
  match n, s with
  | O, _ => EmptyString
  | S _, EmptyString => EmptyString
  | S n', String c s' => String c (take n' s')
  end.

(** What [s.erase(0, n)] leaves. *)
Fixpoint drop (n : nat) (s : string) : string :=
  match n, s with
  | O, _ => s
  | S _, EmptyString => EmptyString
  | S n', String _ s' => drop n' s'
  end.

Definition substr0 (s : string) (len : nat) : string := take len s.
Definition erase_front (s : string) (len : nat) : string := drop len s.
Definition erase_from (s : string) (pos : nat) : string := take pos s.

Definition empty (s : string) : bool :=
  match s with EmptyString => true | String _ _ => false end.

(** [s.c_str()] as [%s] reads it: the characters before the first NUL. *)
Fixpoint c_str (s : string) : string :=
  match s with
  | EmptyString => EmptyString
  | String c s' =>
      if Ascii.eqb c Chars.nul then EmptyString else String c (c_str s')
  end.

End StdString.

(** ** The operating system as seen by the launcher *)

Record PROCESS_INFORMATION := { hProcess : Z; hThread : Z }.

Inductive create_result :=
| CreateFails (last_error : Z)
| CreateOk (process_info : PROCESS_INFORMATION).

Record OS := {
  (** [GetModuleFileName(nullptr, moduleName, MAX_PATH)]: the returned
      count, the text left in the buffer, and what [GetLastError] answers
      right after. *)
  os_GetModuleFileName : Z * string * Z;
  (** [std::ifstream infile(path)]: [None] when the file cannot be opened,
      otherwise the characters the stream delivers. *)
  os_ifstream : string -> option string;
  (** [GetFileAttributes(path)]. *)
  os_GetFileAttributes : string -> Z;
  (** [CreateProcess] on a command line. *)
  os_CreateProcess : string -> create_result;
  (** [GetExitCodeProcess(h, &exitCode)]: [None] when the call fails and
      leaves [exitCode] as it was, otherwise the code it stores. *)
  os_GetExitCodeProcess : Z -> option Z
}.

(** ** The launcher monad: a trace of calls, and C++ [throw] *)

Inductive event :=
| EvGetModuleFileName
| EvOpen (path : string)
| EvGetFileAttributes (path : string)
| EvStderr (text : string)
| EvCreateProcess (command : string)
| EvWaitForSingleObject (h : Z)
| EvGetExitCodeProcess (h : Z)
| EvCloseHandle (h : Z).

Inductive outcome (A : Type) :=
| Return (a : A)
| Throw (e : Z).
Arguments Return {A} a.
Arguments Throw {A} e.

Definition M (A : Type) : Type := list event * outcome A.

Definition ret {A} (a : A) : M A := ([], Return a).
Definition throw {A} (e : Z) : M A := ([], Throw e).
Definition emit (ev : event) : M unit := ([ev], Return tt).

Definition bind {A B} (m : M A) (k : A -> M B) : M B :=
  match m with
  | (tr, Return a) => let '(tr', r) := k a in ((tr ++ tr')%list, r)
  | (tr, Throw e) => (tr, Throw e)
  end.

Declare Scope launcher_scope.
Delimit Scope launcher_scope with launcher.
Notation "x <- m ;; k" := (bind m (fun x => k))
  (at level 61, m at next level, right associativity) : launcher_scope.
Notation "m ;;; k" := (bind m (fun _ => k))
  (at level 61, right associativity) : launcher_scope.
Local Open Scope launcher_scope.

Definition trace {A} (m : M A) : list event := fst m.
Definition result {A} (m : M A) : outcome A := snd m.

(** ** The launcher

    The source is built without [DEBUG]; the [#if defined(DEBUG)] prints
    are not part of the program. *)

(** [std::getline(infile, str)] on a stream that is closed ([None]) or
    holds [Some content]: the flag the stream converts to, and [str] after
    the call.  A closed stream leaves [str] as it was; an open one clears
    it and reads up to the first newline, and fails when it meets the end
    of the file before any character. *)
Fixpoint until_newline (s : string) : string :=
  match s with
  | EmptyString => EmptyString
  | String c s' =>
      if Ascii.eqb c Chars.newline then EmptyString
      else String c (until_newline s')
  end.

Definition getline (infile : option string) (str : string) : bool * string :=
  match infile with
  | None => (false, str)
  | Some EmptyString => (false, EmptyString)
  | Some content => (true, until_newline content)
  end.

Definition eqb_pos (p q : option nat) : bool :=
  match p, q with
  | Some i, Some j => Nat.eqb i j
  | None, None => true
  | _, _ => false
  end.

(** [static std::string dirnameOf(const std::string& fname)] *)
Definition dirnameOf (fname : string) : M string :=
  match StdString.find_last_of fname "\/" with
  | None => throw Win32.ERROR_PATH_NOT_FOUND
  | Some pos => ret (StdString.substr0 fname pos)
  end.

Section Launcher.

Variable os : OS.

Definition GetCurrentModuleName : M string :=
  emit EvGetModuleFileName ;;;
  let '(res, moduleName, last_error) := os_GetModuleFileName os in
  if (res =? 0)%Z || (res =? Win32.MAX_PATH)%Z then throw last_error
  else ret moduleName.

Definition FindPythonScript (exeFullPath : string) : M string :=
  let scriptName := "" in
  dir <- dirnameOf exeFullPath ;;
  let scriptName := scriptName ++ dir in
  let scriptName := scriptName ++ "\mover.py" in
  ret scriptName.

(** The block guarded by the marker test: strip the marker, then trim. *)
Definition strip_and_trim (firstLine : string) : string :=
  let firstLine := StdString.erase_front firstLine (String.length SHEBANG) in
  let firstLine :=
    match StdString.find_first_not_of firstLine extra_chars with
    | Some ltrim => StdString.erase_front firstLine ltrim
    | None => firstLine
    end in
  let firstLine :=
    match StdString.find_last_not_of firstLine extra_chars with
    | Some rtrim => StdString.erase_from firstLine (rtrim + 1)
    | None => firstLine
    end in
  firstLine.

Definition GetPythonExecutable (exeFullPath : string) : M string :=
  let scriptName := "" in
  dir <- dirnameOf exeFullPath ;;
  let scriptName := scriptName ++ dir in
  let scriptName := scriptName ++ "\mover.py" in
  emit (EvOpen scriptName) ;;;
  let infile := os_ifstream os scriptName in
  let '(ok, firstLine) := getline infile "" in
  let firstLine :=
    if ok && eqb_pos (StdString.find firstLine SHEBANG) (Some 0)
    then strip_and_trim firstLine
    else firstLine in
  let pythonExecutable := "python.exe" in
  if negb (StdString.empty firstLine) then
    emit (EvGetFileAttributes firstLine) ;;;
    if negb (os_GetFileAttributes os firstLine =? Win32.INVALID_FILE_ATTRIBUTES)%Z
    then ret firstLine
    else ret pythonExecutable
  else ret pythonExecutable.

Definition GetDoubleQuotedString (input : string) : string :=
  String Chars.dquote "" ++ input ++ String Chars.dquote "".

(** The two [fprintf] formats of [ExecuteCommand]; [%s] gets
    [command.c_str()]. *)
Definition not_found_message (command : string) : string :=
  "Error! Python executable in [" ++ StdString.c_str command
  ++ "] cannot be found."
  ++ String Chars.newline "".

Definition create_failed_message (command : string) (error : Z) : string :=
  "Error! CreateProcess for [" ++ StdString.c_str command
  ++ "] failed with error code: "
  ++ Win32.format_ld error ++ String Chars.newline "".

Definition ExecuteCommand (command : string) (printError : bool) : M Z :=
  emit (EvCreateProcess command) ;;;
  match os_CreateProcess os command with
  | CreateFails error =>
      (if (error =? Win32.ERROR_FILE_NOT_FOUND)%Z then
         if printError then emit (EvStderr (not_found_message command))
         else ret tt
       else
         if printError then emit (EvStderr (create_failed_message command error))
         else ret tt) ;;;
      throw error
  | CreateOk process_info =>
      emit (EvWaitForSingleObject (hProcess process_info)) ;;;
      let exitCode := Win32.NO_ERROR in
      emit (EvGetExitCodeProcess (hProcess process_info)) ;;;
      let exitCode :=
        match os_GetExitCodeProcess os (hProcess process_info) with
        | Some code => code
        | None => exitCode
        end in
      emit (EvCloseHandle (hProcess process_info)) ;;;
      emit (EvCloseHandle (hThread process_info)) ;;;
      ret exitCode
  end.

(** The loop of [main] over [argv[1]], [argv[2]], ... *)
Definition append_argument (command arg : string) : string :=
  let command := command ++ " " in
  command ++ (" " ++ String Chars.dquote "" ++ arg ++ String Chars.dquote "").

Definition build_command (pythonExecutable pythonScript : string)
    (argv : list string) : string :=
  let command :=
    GetDoubleQuotedString pythonExecutable ++ " "
    ++ GetDoubleQuotedString pythonScript in
  fold_left append_argument (skipn 1 argv) command.

Definition main_try (argv : list string) : M Z :=
  exeFullPath <- GetCurrentModuleName ;;
  pythonExecutable <- GetPythonExecutable exeFullPath ;;
  pythonScript <- FindPythonScript exeFullPath ;;
  let command := build_command pythonExecutable pythonScript argv in
  ExecuteCommand command true.

Definition failure_message : string :=
  "Failed to execute the Python script..." ++ String Chars.newline "".

(** [int main(int argc, char* argv[]) try { ... } catch (...) { ... }]:
    the calls made and the [int] returned. *)
Definition main (argv : list string) : list event * Z :=
  match main_try argv with
  | (tr, Return exitCode) => (tr, Win32.to_int exitCode)
  | (tr, Throw _) => ((tr ++ [EvStderr failure_message])%list, 1%Z)
  end.

(** What an observer of the process sees. *)
Definition launcher_exit_code (argv : list string) : Z :=
  Win32.exit_status (snd (main argv)).

Fixpoint stderr_writes (tr : list event) : list string :=
  match tr with
  | [] => []
  | EvStderr text :: tr' => text :: stderr_writes tr'
  | _ :: tr' => stderr_writes tr'
  end.

Definition launcher_stderr (argv : list string) : list string :=
  stderr_writes (fst (main argv)).

End Launcher.

(** The number of lines in what was written to the error stream. *)
Fixpoint count_newlines (s : string) : nat :=
  match s with
  | EmptyString => 0
  | String c s' => (if Ascii.eqb c Chars.newline then 1 else 0) + count_newlines s'
  end.

Definition stderr_lines (writes : list string) : nat :=
  count_newlines (String.concat "" writes).

(** ** What the specification says, in its own words *)

Module Spec.

(** "trimming leading and trailing space and tab characters" *)
Definition is_blank (c : ascii) : bool :=
  Ascii.eqb c Chars.space || Ascii.eqb c Chars.tab.

Fixpoint trim_leading (s : string) : string :=
  match s with
  | EmptyString => EmptyString
  | String c s' => if is_blank c then trim_leading s' else s
  end.

Fixpoint trim_trailing (s : string) : string :=
  match s with
  | EmptyString => EmptyString
  | String c s' =>
      match trim_trailing s' with
      | EmptyString => if is_blank c then EmptyString else String c EmptyString
      | t => String c t
      end
  end.

Definition trim (s : string) : string := trim_trailing (trim_leading s).

(** "quoted interpreter path, quoted script path, and quoted forwarded
    arguments, each separated by a space" *)
Definition quoted (s : string) : string :=
  String Chars.dquote "" ++ s ++ String Chars.dquote "".

Definition command_line (interpreter script : string) (args : list string)
    : string :=
  String.concat " " (map quoted (interpreter :: script :: args)).

(** A directory separator, and a path that holds one. *)
Definition is_separator (c : ascii) : Prop :=
  c = Chars.backslash \/ c = Chars.slash.

Definition occurs (c : ascii) (s : string) : Prop :=
  In c (list_ascii_of_string s).

Definition has_separator (path : string) : Prop :=
  exists c, is_separator c /\ occurs c path.

Definition separator_free (path : string) : Prop :=
  forall c, is_separator c -> ~ occurs c path.

(** The first line of a text: its characters up to the first newline. *)
Definition first_line (content line : string) : Prop :=
  ~ occurs Chars.newline line /\
  (content = line \/ exists rest, content = line ++ String Chars.newline rest).

End Spec.

(** The files a run opened for reading, in order. *)
Fixpoint opened_files (tr : list event) : list string :=
  match tr with
  | [] => []
  | EvOpen path :: tr' => path :: opened_files tr'
  | _ :: tr' => opened_files tr'
  end.

(** The command lines a run handed to [CreateProcess], in order. *)
Fixpoint spawned_commands (tr : list event) : list string :=
  match tr with
  | [] => []
  | EvCreateProcess command :: tr' => command :: spawned_commands tr'
  | _ :: tr' => spawned_commands tr'
  end.

(** The handles a run closed, in order. *)
Fixpoint closed_handles (tr : list event) : list Z :=
  match tr with
  | [] => []
  | EvCloseHandle h :: tr' => h :: closed_handles tr'
  | _ :: tr' => closed_handles tr'
  end.

(** Everything of [main] before the spawn: the command line it builds. *)
Definition prepare_command (os : OS) (argv : list string) : M string :=
  exeFullPath <- GetCurrentModuleName os ;;
  pythonExecutable <- GetPythonExecutable os exeFullPath ;;
  pythonScript <- FindPythonScript exeFullPath ;;
  ret (build_command pythonExecutable pythonScript argv).


(** The text [GetPythonExecutable] ends up with in [firstLine]: the first
    line of the stream, stripped and trimmed when it carries the marker. *)
Definition interpreter_candidate (infile : option string) : string :=
  let '(ok, firstLine) := getline infile "" in
  if ok && eqb_pos (StdString.find firstLine SHEBANG) (Some 0)
  then strip_and_trim firstLine
  else firstLine.

(** The existence test of the source: [GetFileAttributes] answers something
    other than [INVALID_FILE_ATTRIBUTES]. *)
Definition file_exists (os : OS) (path : string) : bool :=
  negb (os_GetFileAttributes os path =? Win32.INVALID_FILE_ATTRIBUTES)%Z.

Definition occursb (c : ascii) (s : string) : bool :=
  StdString.mem c s.

(** The command line as [main] really lays it out. *)
Definition spaced_argument (arg : string) : string :=
  "  " ++ GetDoubleQuotedString arg.

Definition laid_out_command (interpreter script : string) (args : list string)
    : string :=
  GetDoubleQuotedString interpreter ++ " " ++ GetDoubleQuotedString script
  ++ String.concat "" (map spaced_argument args).

(** The internal failures of the launcher, and when each one happens. *)
Inductive failure :=
| PathResolutionError (last_error : Z)
| PathParseError (exeFullPath : string)
| ProcessCreationError (command : string) (last_error : Z).

Inductive fails (os : OS) (argv : list string) : failure -> Prop :=
| fails_resolution e :
    result (GetCurrentModuleName os) = Throw e ->
    fails os argv (PathResolutionError e)
| fails_parse exe :
    result (GetCurrentModuleName os) = Return exe ->
    Spec.separator_free exe ->
    fails os argv (PathParseError exe)
| fails_creation command e :
    result (prepare_command os argv) = Return command ->
    os_CreateProcess os command = CreateFails e ->
    fails os argv (ProcessCreationError command e).

(** What the launcher writes to the error stream on each of them. *)
Definition diagnostics (k : failure) : list string :=
  match k with
  | PathResolutionError _ => [failure_message]
  | PathParseError _ => [failure_message]
  | ProcessCreationError command e =>
      [ if (e =? Win32.ERROR_FILE_NOT_FOUND)%Z then not_found_message command
        else create_failed_message command e;
        failure_message ]
  end.

(** ** Concrete installations used to run the model *)

Module Examples.

Definition exe : string := "C:\ros\bin\mover.exe".
Definition script : string := "C:\ros\bin\mover.py".
Definition python39 : string := "C:\Python39\python.exe".
Definition line (s : string) : string := s ++ String Chars.newline "".
Definition child : PROCESS_INFORMATION := {| hProcess := 4; hThread := 8 |}.

(** An installation in [C:\ros\bin]: what [mover.py] holds (if readable),
    which paths have attributes, how the spawn goes and what exit code the
    system reports. *)
Definition installation (content : option string) (existing : list string)
    (spawn : create_result) (code : option Z) : OS :=
  {| os_GetModuleFileName := (20%Z, exe, 0%Z);
     os_ifstream := fun p => if String.eqb p script then content else None;
     os_GetFileAttributes := fun p =>
       if existsb (String.eqb p) existing then 32%Z
       else Win32.INVALID_FILE_ATTRIBUTES;
     os_CreateProcess := fun _ => spawn;
     os_GetExitCodeProcess := fun _ => code |}.

(** [mover.py] starts with [#!C:\Python39\python.exe], which exists. *)
Definition with_shebang (code : Z) : OS :=
  installation (Some (line (SHEBANG ++ python39) ++ line "print(1)"))
    [python39] (CreateOk child) (Some code).

(** [mover.py] starts with the bare line [C:\Python39\python.exe]: no
    marker, yet a path that exists. *)
Definition markerless : OS :=
  installation (Some (line python39 ++ line "print(1)"))
    [python39] (CreateOk child) (Some 0%Z).

(** [mover.py] has no marker and no interpreter can be spawned. *)
Definition no_interpreter : OS :=
  installation (Some (line "print(1)")) []
    (CreateFails Win32.ERROR_FILE_NOT_FOUND) None.

(** The spawn works but the exit code cannot be retrieved. *)
Definition no_exit_code : OS :=
  installation (Some (line "print(1)")) [] (CreateOk child) None.

(** The module name came back without any separator. *)
Definition bare_module_name : OS :=
  {| os_GetModuleFileName := (9%Z, "mover.exe", 0%Z);
     os_ifstream := fun _ => None;
     os_GetFileAttributes := fun _ => Win32.INVALID_FILE_ATTRIBUTES;
     os_CreateProcess := fun _ => CreateOk child;
     os_GetExitCodeProcess := fun _ => Some 0%Z |}.

End Examples.

(** ** Projections and predicates used to state what a run does *)

(** The calls a run made on process handles, in order. *)
Fixpoint handle_calls (tr : list event) : list event :=
  match tr with
  | [] => []
  | EvWaitForSingleObject h :: tr' => EvWaitForSingleObject h :: handle_calls tr'
  | EvGetExitCodeProcess h :: tr' => EvGetExitCodeProcess h :: handle_calls tr'
  | EvCloseHandle h :: tr' => EvCloseHandle h :: handle_calls tr'
  | _ :: tr' => handle_calls tr'
  end.

(** The paths a run tested with [GetFileAttributes], in order. *)
Fixpoint tested_paths (tr : list event) : list string :=
  match tr with
  | [] => []
  | EvGetFileAttributes path :: tr' => path :: tested_paths tr'
  | _ :: tr' => tested_paths tr'
  end.

(** A run with the writes to the error stream left out. *)
Fixpoint system_calls (tr : list event) : list event :=
  match tr with
  | [] => []
  | EvStderr _ :: tr' => system_calls tr'
  | ev :: tr' => ev :: system_calls tr'
  end.

(** The run got as far as a child process. *)
Definition child_created (os : OS) (argv : list string) (command : string)
    (process_info : PROCESS_INFORMATION) : Prop :=
  result (prepare_command os argv) = Return command /\
  os_CreateProcess os command = CreateOk process_info.

(** A string without a double quote, and a string of spaces and tabs. *)
Definition quote_free (s : string) : Prop := ~ Spec.occurs Chars.dquote s.

Definition all_blank (s : string) : Prop :=
  forall c, Spec.occurs c s -> Spec.is_blank c = true.


Definition starts_non_blank (s : string) : Prop :=
  exists c s', s = String c s' /\ Spec.is_blank c = false.

Definition ends_non_blank (s : string) : Prop :=
  exists s' c, s = s' ++ String c "" /\ Spec.is_blank c = false.

(** An argument that closes its own quotes and opens new ones. *)
Definition quote_gap : string :=
  String Chars.dquote "" ++ "  " ++ String Chars.dquote "".

(** Before the spawn a run asks for its module name, then opens at most
    one file and tests at most one path. *)
Inductive preparation_trace : list event -> Prop :=
| prepared_nothing :
    preparation_trace [EvGetModuleFileName]
| prepared_open scriptName :
    preparation_trace [EvGetModuleFileName; EvOpen scriptName]
| prepared_open_test scriptName candidate :
    candidate <> "" ->
    preparation_trace
      [EvGetModuleFileName; EvOpen scriptName; EvGetFileAttributes candidate].
(** ** Facts about the string operations *)

Section StringFacts.

Import StdString.

Lemma append_empty_r (s : string) : s ++ "" = s.
Proof. induction s as [|c s IH]; simpl; [reflexivity | now rewrite IH]. Qed.

Lemma append_assoc (a b c : string) : (a ++ b) ++ c = a ++ (b ++ c).
Proof. induction a as [|x a IH]; simpl; [reflexivity | now rewrite IH]. Qed.

Lemma take_append (d x : string) : take (String.length d) (d ++ x) = d.
Proof. induction d as [|c d IH]; simpl; [now destruct x | now rewrite IH]. Qed.

Lemma drop_append (d x : string) : drop (String.length d) (d ++ x) = x.
Proof. induction d as [|c d IH]; simpl; [reflexivity | exact IH]. Qed.

Lemma mem_separators (c : ascii) :
  mem c "\/" = true <-> Spec.is_separator c.
Proof.
  unfold Spec.is_separator, Chars.backslash, Chars.slash; simpl.
  rewrite orb_false_r, orb_true_iff, !Ascii.eqb_eq. tauto.
Qed.

Lemma mem_extra_chars (c : ascii) : mem c extra_chars = Spec.is_blank c.
Proof. unfold extra_chars, Spec.is_blank; simpl. now rewrite orb_false_r. Qed.

Lemma occurs_cons (c d : ascii) (s : string) :
  Spec.occurs c (String d s) <-> d = c \/ Spec.occurs c s.
Proof. unfold Spec.occurs; simpl; tauto. Qed.

Lemma occurs_append (c : ascii) (a b : string) :
  Spec.occurs c (a ++ b) <-> Spec.occurs c a \/ Spec.occurs c b.
Proof.
  induction a as [|x a IH]; simpl.
  - unfold Spec.occurs at 2; simpl; tauto.
  - rewrite !occurs_cons, IH; tauto.
Qed.

(** [find_last_of] answers [npos] exactly on strings without a character
    of the set. *)
Lemma find_last_of_npos (s set : string) :
  find_last_of s set = None <->
  (forall c, Spec.occurs c s -> mem c set = false).
Proof.
  induction s as [|x s IH]; simpl.
  - split; [intros _ c [] | reflexivity].
  - destruct (find_last_of s set) as [i|] eqn:E.
    + split; [discriminate|]. intros H.
      assert (Some i = None) as F; [|discriminate F].
      apply IH. intros c Hc. apply H, occurs_cons. now right.
    + destruct (mem x set) eqn:Ex.
      * split; [discriminate|]. intros H.
        rewrite (H x) in Ex; [discriminate|]. apply occurs_cons; now left.
      * split; [|reflexivity]. intros _ c Hc.
        apply occurs_cons in Hc as [<-|Hc]; [exact Ex|].
        now apply (proj1 IH).
Qed.

(** Otherwise it answers the position of the last such character. *)
Lemma find_last_of_pos (s set : string) (pos : nat) :
  find_last_of s set = Some pos ->
  exists d c rest,
    s = d ++ String c rest /\ String.length d = pos /\
    mem c set = true /\ find_last_of rest set = None.
Proof.
  revert pos; induction s as [|x s IH]; simpl; intros pos H; [discriminate|].
  destruct (find_last_of s set) as [i|] eqn:E.
  - injection H as <-.
    destruct (IH i eq_refl) as (d & c & rest & -> & Hl & Hc & Hr).
    exists (String x d), c, rest; simpl. now rewrite Hl.
  - destruct (mem x set) eqn:Ex; [|discriminate].
    injection H as <-. now exists "", x, s.
Qed.

Lemma find_last_of_append (d rest set : string) (c : ascii) :
  mem c set = true -> find_last_of rest set = None ->
  find_last_of (d ++ String c rest) set = Some (String.length d).
Proof.
  intros Hc Hr; induction d as [|x d IH]; simpl.
  - now rewrite Hr, Hc.
  - now rewrite IH.
Qed.

(** The trimming idiom of the source against the specification's trim. *)
Lemma find_first_not_of_trim (s : string) :
  match find_first_not_of s extra_chars with
  | Some ltrim => drop ltrim s = Spec.trim_leading s /\ Spec.trim_leading s <> ""
  | None => Spec.trim_leading s = ""
  end.
Proof.
  induction s as [|c s IH]; [reflexivity|].
  cbn [find_first_not_of Spec.trim_leading]. rewrite mem_extra_chars.
  destruct (Spec.is_blank c).
  - destruct (find_first_not_of s extra_chars); simpl; exact IH.
  - simpl. split; [reflexivity | discriminate].
Qed.

Lemma find_last_not_of_trim (s : string) :
  match find_last_not_of s extra_chars with
  | Some rtrim => take (rtrim + 1) s = Spec.trim_trailing s /\ Spec.trim_trailing s <> ""
  | None => Spec.trim_trailing s = ""
  end.
Proof.
  induction s as [|c s IH]; [reflexivity|].
  cbn [find_last_not_of Spec.trim_trailing]. rewrite mem_extra_chars.
  destruct (find_last_not_of s extra_chars) as [j|].
  - destruct IH as [IH Hne]. cbn [Nat.add take]. rewrite IH.
    destruct (Spec.trim_trailing s); [now elim Hne|].
    split; [reflexivity | discriminate].
  - rewrite IH. destruct (Spec.is_blank c); [reflexivity|].
    simpl. split; [reflexivity | discriminate].
Qed.

Lemma trim_trailing_blank (s : string) :
  Spec.trim_leading s = "" -> Spec.trim_trailing s = "".
Proof.
  induction s as [|c s IH]; simpl; [reflexivity|].
  destruct (Spec.is_blank c); [|discriminate].
  intros H. now rewrite (IH H).
Qed.

End StringFacts.

(** ** Facts about the monad and the steps of [main] *)

Lemma bind_assoc {A B C} (m : M A) (f : A -> M B) (g : B -> M C) :
  bind (bind m f) g = bind m (fun a => bind (f a) g).
Proof.
  destruct m as [tr [a|e]]; simpl; [|reflexivity].
  destruct (f a) as [tr1 [b|e]]; simpl; [|reflexivity].
  destruct (g b) as [tr2 r]. now rewrite app_assoc.
Qed.

Lemma bind_ret_r {A} (m : M A) : bind m ret = m.
Proof.
  destruct m as [tr [a|e]]; simpl; [|reflexivity]. now rewrite app_nil_r.
Qed.

Lemma bind_ret_l {A B} (a : A) (k : A -> M B) : bind (ret a) k = k a.
Proof. unfold bind, ret. now destruct (k a). Qed.

Lemma main_try_split (os : OS) (argv : list string) :
  main_try os argv =
  bind (prepare_command os argv) (fun command => ExecuteCommand os command true).
Proof.
  unfold main_try, prepare_command.
  destruct (GetCurrentModuleName os) as [tr0 [exe|e]]; simpl; [|reflexivity].
  destruct (GetPythonExecutable os exe) as [tr1 [pe|e]]; simpl; [|reflexivity].
  destruct (FindPythonScript exe) as [tr2 [ps|e]]; simpl; [|reflexivity].
  destruct (ExecuteCommand os (build_command pe ps argv) true) as [tr3 r].
  simpl. now rewrite !app_nil_r, !app_assoc.
Qed.

Lemma separator_free_npos (path : string) :
  Spec.separator_free path <-> StdString.find_last_of path "\/" = None.
Proof.
  rewrite find_last_of_npos. unfold Spec.separator_free. split.
  - intros H c Hc. destruct (StdString.mem c "\/") eqn:E; [|reflexivity].
    apply mem_separators in E. now elim (H c E).
  - intros H c Hs Hc. apply mem_separators in Hs. rewrite (H c Hc) in Hs.
    discriminate.
Qed.

Lemma has_separator_pos (path : string) :
  Spec.has_separator path ->
  exists pos, StdString.find_last_of path "\/" = Some pos.
Proof.
  intros (c & Hs & Hc).
  destruct (StdString.find_last_of path "\/") as [pos|] eqn:E; [now exists pos|].
  apply separator_free_npos in E. now elim (E c Hs).
Qed.

(** [dirnameOf] cuts the path at its last separator. *)
Lemma dirnameOf_last_separator (path : string) :
  Spec.has_separator path ->
  exists dir sep rest,
    path = dir ++ String sep rest /\ Spec.is_separator sep /\
    Spec.separator_free rest /\ dirnameOf path = ret dir.
Proof.
  intros H. destruct (has_separator_pos path H) as [pos E].
  destruct (find_last_of_pos _ _ _ E) as (d & c & rest & -> & Hl & Hc & Hr).
  exists d, c, rest. repeat split.
  - now apply mem_separators.
  - now apply separator_free_npos.
  - unfold dirnameOf. rewrite E, <- Hl. unfold StdString.substr0.
    now rewrite take_append.
Qed.

(** The decomposition at the last separator is the only one. *)
Lemma last_separator_unique (d1 d2 r1 r2 : string) (c1 c2 : ascii) :
  d1 ++ String c1 r1 = d2 ++ String c2 r2 ->
  Spec.is_separator c1 -> Spec.is_separator c2 ->
  Spec.separator_free r1 -> Spec.separator_free r2 ->
  d1 = d2.
Proof.
  intros E H1 H2 F1 F2.
  apply mem_separators in H1, H2. apply separator_free_npos in F1, F2.
  pose proof (find_last_of_append d1 r1 "\/" c1 H1 F1) as P1.
  pose proof (find_last_of_append d2 r2 "\/" c2 H2 F2) as P2.
  rewrite E, P2 in P1. injection P1 as L.
  rewrite <- (take_append d1 (String c1 r1)), E, <- L.
  apply take_append.
Qed.

Lemma dirnameOf_throws (path : string) :
  Spec.separator_free path -> dirnameOf path = throw Win32.ERROR_PATH_NOT_FOUND.
Proof.
  intros H. apply separator_free_npos in H. unfold dirnameOf. now rewrite H.
Qed.

Lemma GetCurrentModuleName_trace (os : OS) :
  trace (GetCurrentModuleName os) = [EvGetModuleFileName].
Proof.
  unfold GetCurrentModuleName.
  destruct (os_GetModuleFileName os) as [[res name] err]; simpl.
  now destruct ((res =? 0)%Z || (res =? Win32.MAX_PATH)%Z).
Qed.

Lemma GetCurrentModuleName_eq (os : OS) :
  GetCurrentModuleName os = ([EvGetModuleFileName], result (GetCurrentModuleName os)).
Proof.
  pose proof (GetCurrentModuleName_trace os) as H. unfold trace, result in *.
  destruct (GetCurrentModuleName os) as [tr r]; simpl in *. now subst.
Qed.

(** ** Facts about [GetPythonExecutable] *)

Lemma occursb_false (c : ascii) (s : string) :
  occursb c s = false -> ~ Spec.occurs c s.
Proof.
  unfold occursb. induction s as [|d s IH]; simpl; intros H Hc.
  - exact Hc.
  - apply orb_false_iff in H as [Hd Hs]. apply occurs_cons in Hc as [->|Hc].
    + now rewrite Ascii.eqb_refl in Hd.
    + now apply IH.
Qed.

Lemma until_newline_first_line (content line : string) :
  Spec.first_line content line -> until_newline content = line.
Proof.
  intros [Hn H]. revert content H.
  induction line as [|c l IH]; intros content H.
  - destruct H as [->|[rest ->]]; [reflexivity|].
    reflexivity.
  - assert (Ascii.eqb c Chars.newline = false) as Hc.
    { apply Ascii.eqb_neq. intros ->. apply Hn, occurs_cons. now left. }
    assert (~ Spec.occurs Chars.newline l) as Hl.
    { intros F. apply Hn, occurs_cons. now right. }
    destruct H as [->|[rest ->]]; simpl; rewrite Hc; f_equal; apply (IH Hl).
    + now left.
    + right. now exists rest.
Qed.

(** [GetPythonExecutable], once the directory is known: one file opened,
    at most one existence test, and the interpreter chosen. *)
Lemma GetPythonExecutable_eq (os : OS) (exeFullPath dir : string) :
  dirnameOf exeFullPath = ret dir ->
  GetPythonExecutable os exeFullPath =
  let scriptName := dir ++ "\mover.py" in
  let firstLine := interpreter_candidate (os_ifstream os scriptName) in
  ((EvOpen scriptName ::
     if StdString.empty firstLine then [] else [EvGetFileAttributes firstLine])%list,
   Return (if negb (StdString.empty firstLine) && file_exists os firstLine
           then firstLine else "python.exe")).
Proof.
  intros H. unfold GetPythonExecutable, interpreter_candidate, file_exists.
  rewrite H. cbn [bind ret emit append fst snd app].
  destruct (getline (os_ifstream os (dir ++ "\mover.py")) "") as [ok firstLine].
  set (candidate := if ok && _ then _ else _).
  destruct (StdString.empty candidate); cbn.
  - reflexivity.
  - now destruct (os_GetFileAttributes os candidate =? Win32.INVALID_FILE_ATTRIBUTES)%Z.
Qed.

Lemma GetPythonExecutable_throws (os : OS) (exeFullPath : string) (e : Z) :
  dirnameOf exeFullPath = throw e ->
  GetPythonExecutable os exeFullPath = throw e.
Proof. intros H. unfold GetPythonExecutable. now rewrite H. Qed.

Lemma FindPythonScript_eq (exeFullPath dir : string) :
  dirnameOf exeFullPath = ret dir ->
  FindPythonScript exeFullPath = ret (dir ++ "\mover.py").
Proof. intros H. unfold FindPythonScript. now rewrite H. Qed.

Lemma FindPythonScript_throws (exeFullPath : string) (e : Z) :
  dirnameOf exeFullPath = throw e -> FindPythonScript exeFullPath = throw e.
Proof. intros H. unfold FindPythonScript. now rewrite H. Qed.

Lemma dirnameOf_cases (fname : string) :
  (exists dir, dirnameOf fname = ret dir) \/
  dirnameOf fname = throw Win32.ERROR_PATH_NOT_FOUND.
Proof.
  unfold dirnameOf. destruct (StdString.find_last_of fname "\/") as [pos|].
  - left. now eexists.
  - now right.
Qed.

(** The candidate of a closed or empty script is the empty string. *)
Lemma candidate_unreadable : interpreter_candidate None = "".
Proof. reflexivity. Qed.

Lemma candidate_empty_file : interpreter_candidate (Some "") = "".
Proof. reflexivity. Qed.

(** Without the marker the first line is kept as it is. *)
Lemma candidate_markerless (content : string) :
  String.prefix SHEBANG (until_newline content) = false ->
  interpreter_candidate (Some content) = until_newline content.
Proof.
  intros H. unfold interpreter_candidate, getline.
  destruct content as [|c content]; [reflexivity|].
  destruct (until_newline (String c content)) as [|x l] eqn:E.
  - now rewrite andb_false_r.
  - cbn [StdString.find]. rewrite H. cbn [andb].
    destruct (StdString.find l SHEBANG); reflexivity.
Qed.

(** With the marker it is stripped, and trimmed unless all of it is blank. *)
Lemma strip_and_trim_marker (r : string) :
  strip_and_trim (SHEBANG ++ r) =
  if StdString.empty (Spec.trim r) then r else Spec.trim r.
Proof.
  unfold strip_and_trim. cbn [SHEBANG String.length append StdString.erase_front StdString.drop].
  pose proof (find_first_not_of_trim r) as L.
  destruct (StdString.find_first_not_of r extra_chars) as [ltrim|].
  - destruct L as [L Lne]. unfold StdString.erase_front. rewrite L.
    pose proof (find_last_not_of_trim (Spec.trim_leading r)) as R.
    destruct (StdString.find_last_not_of (Spec.trim_leading r) extra_chars) as [rtrim|].
    + destruct R as [R Rne]. unfold StdString.erase_from, Spec.trim. rewrite R.
      destruct (Spec.trim_trailing (Spec.trim_leading r)); [now elim Rne | reflexivity].
    + exfalso. clear L.
      induction r as [|c r IH]; simpl in *; [now elim Lne|].
      destruct (Spec.is_blank c) eqn:B; [now apply IH|].
      simpl in R. rewrite B in R.
      destruct (Spec.trim_trailing r); discriminate.
  - pose proof (trim_trailing_blank r L) as T.
    pose proof (find_last_not_of_trim r) as R.
    destruct (StdString.find_last_not_of r extra_chars) as [rtrim|].
    + destruct R as [_ Rne]. now elim Rne.
    + unfold Spec.trim. rewrite L. reflexivity.
Qed.

Lemma candidate_marker (content r : string) :
  until_newline content = SHEBANG ++ r ->
  interpreter_candidate (Some content) =
  if StdString.empty (Spec.trim r) then r else Spec.trim r.
Proof.
  intros H. unfold interpreter_candidate, getline.
  destruct content as [|c content]; [discriminate|].
  rewrite H.
  assert (StdString.find (SHEBANG ++ r) SHEBANG = Some 0) as F.
  { cbn. now destruct r. }
  rewrite F. apply (strip_and_trim_marker r).
Qed.

(** ** Facts about the spawn and about [main] *)

Lemma exit_status_to_int (code : Z) :
  Win32.DWORD_range code -> Win32.exit_status (Win32.to_int code) = code.
Proof.
  unfold Win32.DWORD_range, Win32.exit_status, Win32.to_int. intros H.
  rewrite Zminus_mod_idemp_l.
  replace (code + 2 ^ 31 - 2 ^ 31)%Z with code by lia.
  now apply Z.mod_small.
Qed.

Lemma ExecuteCommand_created (os : OS) (command : string) (printError : bool)
    (process_info : PROCESS_INFORMATION) :
  os_CreateProcess os command = CreateOk process_info ->
  ExecuteCommand os command printError =
  ([EvCreateProcess command;
    EvWaitForSingleObject (hProcess process_info);
    EvGetExitCodeProcess (hProcess process_info);
    EvCloseHandle (hProcess process_info);
    EvCloseHandle (hThread process_info)],
   Return match os_GetExitCodeProcess os (hProcess process_info) with
          | Some code => code
          | None => Win32.NO_ERROR
          end).
Proof. intros H. unfold ExecuteCommand. now rewrite H. Qed.

Lemma ExecuteCommand_failed (os : OS) (command : string) (error : Z) :
  os_CreateProcess os command = CreateFails error ->
  ExecuteCommand os command true =
  ([EvCreateProcess command;
    EvStderr (if (error =? Win32.ERROR_FILE_NOT_FOUND)%Z
              then not_found_message command
              else create_failed_message command error)],
   Throw error).
Proof.
  intros H. unfold ExecuteCommand. rewrite H.
  now destruct (error =? Win32.ERROR_FILE_NOT_FOUND)%Z.
Qed.

Lemma stderr_writes_app (tr1 tr2 : list event) :
  stderr_writes (tr1 ++ tr2) = (stderr_writes tr1 ++ stderr_writes tr2)%list.
Proof.
  induction tr1 as [|ev tr1 IH]; [reflexivity|].
  destruct ev; simpl; now rewrite IH.
Qed.

Lemma spawned_commands_app (tr1 tr2 : list event) :
  spawned_commands (tr1 ++ tr2) =
  (spawned_commands tr1 ++ spawned_commands tr2)%list.
Proof.
  induction tr1 as [|ev tr1 IH]; [reflexivity|].
  destruct ev; simpl; now rewrite IH.
Qed.

(** Nothing is written or spawned while the command line is prepared. *)
Lemma prepare_command_quiet (os : OS) (argv : list string) :
  stderr_writes (trace (prepare_command os argv)) = [] /\
  spawned_commands (trace (prepare_command os argv)) = [].
Proof.
  unfold prepare_command. rewrite (GetCurrentModuleName_eq os).
  destruct (result (GetCurrentModuleName os)) as [exe|e]; [|now split].
  cbn [bind].
  destruct (dirnameOf_cases exe) as [[dir H]|H].
  - rewrite (GetPythonExecutable_eq os exe dir H), (FindPythonScript_eq exe dir H).
    cbv zeta. cbn [bind ret fst snd app trace].
    now destruct (StdString.empty _).
  - rewrite (GetPythonExecutable_throws os exe _ H). now split.
Qed.

(** [main] in two steps: prepare the command line, then spawn. *)
Lemma main_prepared (os : OS) (argv : list string) (command : string) :
  result (prepare_command os argv) = Return command ->
  main os argv =
  match ExecuteCommand os command true with
  | (tr, Return exitCode) =>
      ((trace (prepare_command os argv) ++ tr)%list, Win32.to_int exitCode)
  | (tr, Throw _) =>
      ((trace (prepare_command os argv) ++ tr ++ [EvStderr failure_message])%list, 1%Z)
  end.
Proof.
  intros H. unfold main. rewrite main_try_split.
  destruct (prepare_command os argv) as [tr0 r0].
  unfold result, trace in *; cbn [fst snd] in *. subst r0. cbn [bind].
  destruct (ExecuteCommand os command true) as [tr [c|e]]; [reflexivity|].
  now rewrite app_assoc.
Qed.

Lemma main_not_prepared (os : OS) (argv : list string) (e : Z) :
  result (prepare_command os argv) = Throw e ->
  main os argv =
  ((trace (prepare_command os argv) ++ [EvStderr failure_message])%list, 1%Z).
Proof.
  intros H. unfold main. rewrite main_try_split.
  destruct (prepare_command os argv) as [tr0 r0].
  unfold result, trace in *; cbn [fst snd] in *. now subst r0.
Qed.

(** The loop over the forwarded arguments. *)
Lemma fold_append_argument (args : list string) (command : string) :
  fold_left append_argument args command =
  command ++ String.concat "" (map spaced_argument args).
Proof.
  revert command; induction args as [|a args IH]; intros command.
  - simpl. now rewrite append_empty_r.
  - cbn [fold_left map]. rewrite IH.
    assert (append_argument command a = command ++ spaced_argument a) as ->.
    { unfold append_argument, spaced_argument, GetDoubleQuotedString.
      rewrite append_assoc. reflexivity. }
    rewrite append_assoc. f_equal.
    destruct args as [|b args]; simpl.
    + now rewrite append_empty_r.
    + reflexivity.
Qed.

Lemma build_command_laid_out (interpreter script : string) (argv : list string) :
  build_command interpreter script argv =
  laid_out_command interpreter script (skipn 1 argv).
Proof.
  unfold build_command, laid_out_command. rewrite fold_append_argument.
  now rewrite !append_assoc.
Qed.

Lemma occursb_true (c : ascii) (s : string) :
  occursb c s = true -> Spec.occurs c s.
Proof.
  unfold occursb. induction s as [|d s IH]; simpl; [discriminate|].
  intros H. apply occurs_cons. apply orb_true_iff in H as [H|H].
  - left. symmetry. now apply Ascii.eqb_eq.
  - right. now apply IH.
Qed.

Lemma prepare_command_unresolved (os : OS) (argv : list string) (e : Z) :
  result (GetCurrentModuleName os) = Throw e ->
  prepare_command os argv = ([EvGetModuleFileName], Throw e).
Proof.
  intros H. unfold prepare_command.
  rewrite (GetCurrentModuleName_eq os), H. reflexivity.
Qed.

Lemma prepare_command_unparsed (os : OS) (argv : list string) (exe : string) :
  result (GetCurrentModuleName os) = Return exe ->
  Spec.separator_free exe ->
  prepare_command os argv =
  ([EvGetModuleFileName], Throw Win32.ERROR_PATH_NOT_FOUND).
Proof.
  intros H F. unfold prepare_command.
  rewrite (GetCurrentModuleName_eq os), H. cbn [bind].
  now rewrite (GetPythonExecutable_throws os exe _ (dirnameOf_throws exe F)).
Qed.

Lemma prepare_command_result (os : OS) (argv : list string)
    (exe interpreter script : string) :
  result (GetCurrentModuleName os) = Return exe ->
  result (GetPythonExecutable os exe) = Return interpreter ->
  result (FindPythonScript exe) = Return script ->
  result (prepare_command os argv) =
  Return (build_command interpreter script argv).
Proof.
  intros H1 H2 H3. unfold prepare_command.
  rewrite (GetCurrentModuleName_eq os), H1. cbn [bind].
  destruct (GetPythonExecutable os exe) as [tr1 r1].
  destruct (FindPythonScript exe) as [tr2 r2].
  unfold result in *; cbn [snd] in *. now subst.
Qed.

Lemma ExecuteCommand_spawned (os : OS) (command : string) :
  spawned_commands (trace (ExecuteCommand os command true)) = [command].
Proof.
  destruct (os_CreateProcess os command) as [e|process_info] eqn:E.
  - now rewrite (ExecuteCommand_failed os command e E).
  - now rewrite (ExecuteCommand_created os command true process_info E).
Qed.

(** The interpreter chosen for each kind of first line. *)
Lemma GetPythonExecutable_unreadable (os : OS) (exe dir : string) :
  dirnameOf exe = ret dir ->
  os_ifstream os (dir ++ "\mover.py") = None ->
  GetPythonExecutable os exe = ([EvOpen (dir ++ "\mover.py")], Return "python.exe").
Proof.
  intros H N. rewrite (GetPythonExecutable_eq os exe dir H). cbv zeta.
  now rewrite N.
Qed.

Lemma GetPythonExecutable_markerless (os : OS) (exe dir content : string) :
  dirnameOf exe = ret dir ->
  os_ifstream os (dir ++ "\mover.py") = Some content ->
  String.prefix SHEBANG (until_newline content) = false ->
  result (GetPythonExecutable os exe) =
  Return (if negb (StdString.empty (until_newline content))
             && file_exists os (until_newline content)
          then until_newline content else "python.exe").
Proof.
  intros H N P. rewrite (GetPythonExecutable_eq os exe dir H). cbv zeta.
  now rewrite N, (candidate_markerless content P).
Qed.

Lemma GetPythonExecutable_marker (os : OS) (exe dir content r : string) :
  dirnameOf exe = ret dir ->
  os_ifstream os (dir ++ "\mover.py") = Some content ->
  Spec.first_line content (SHEBANG ++ r) ->
  result (GetPythonExecutable os exe) =
  Return (let candidate := if StdString.empty (Spec.trim r) then r else Spec.trim r in
          if negb (StdString.empty candidate) && file_exists os candidate
          then candidate else "python.exe").
Proof.
  intros H N F. rewrite (GetPythonExecutable_eq os exe dir H). cbv zeta.
  rewrite N, (candidate_marker content r (until_newline_first_line _ _ F)).
  reflexivity.
Qed.

(** The marker case falls back to the default whenever the text that is
    tested does not exist; an all-blank remainder is tested untrimmed. *)
Lemma GetPythonExecutable_marker_fallback (os : OS) (exe dir content r : string) :
  dirnameOf exe = ret dir ->
  os_ifstream os (dir ++ "\mover.py") = Some content ->
  Spec.first_line content (SHEBANG ++ r) ->
  (Spec.trim r = "" -> r = "" \/ file_exists os r = false) ->
  (Spec.trim r <> "" -> file_exists os (Spec.trim r) = false) ->
  result (GetPythonExecutable os exe) = Return "python.exe".
Proof.
  intros H N F B T. rewrite (GetPythonExecutable_marker os exe dir content r H N F).
  cbv zeta. destruct (Spec.trim r) as [|c t] eqn:E; cbn [StdString.empty].
  - destruct (B eq_refl) as [->|X]; [reflexivity|].
    rewrite X. now rewrite andb_false_r.
  - rewrite T by discriminate. now rewrite andb_false_r.
Qed.

(** ** Runs of the model on the installations *)

Example run_with_shebang :
  main (Examples.with_shebang 42) ["mover.exe"; "a b"; "c"] =
  ([EvGetModuleFileName;
    EvOpen Examples.script;
    EvGetFileAttributes Examples.python39;
    EvCreateProcess
      (laid_out_command Examples.python39 Examples.script ["a b"; "c"]);
    EvWaitForSingleObject 4; EvGetExitCodeProcess 4;
    EvCloseHandle 4; EvCloseHandle 8],
   42%Z).
Proof. reflexivity. Qed.

Example relays_0_1_42 :
  map (fun code => launcher_exit_code (Examples.with_shebang code) ["mover.exe"])
      [0; 1; 42; 4294967295]%Z = [0; 1; 42; 4294967295]%Z.
Proof. reflexivity. Qed.

Example handles_released :
  closed_handles (fst (main (Examples.with_shebang 0) ["mover.exe"])) = [4; 8]%Z.
Proof. reflexivity. Qed.

Example trimmed_shebang :
  interpreter_candidate
    (Some (Examples.line (SHEBANG ++ "  /does/not/exist  ") ++ "print(1)")) =
  "/does/not/exist".
Proof. reflexivity. Qed.

Example missing_interpreter_falls_back :
  result (GetPythonExecutable
            (Examples.installation
               (Some (Examples.line (SHEBANG ++ "  /does/not/exist  ")))
               [] (CreateOk Examples.child) (Some 0%Z))
            Examples.exe) = Return "python.exe".
Proof. reflexivity. Qed.

Example unreadable_script_falls_back :
  result (GetPythonExecutable
            (Examples.installation None [Examples.python39]
               (CreateOk Examples.child) (Some 0%Z))
            Examples.exe) = Return "python.exe".
Proof. reflexivity. Qed.

Example format_ld_examples :
  map Win32.format_ld [5; 4294967295]%Z = ["5"; "-1"].
Proof. reflexivity. Qed.

Example no_separator_throws : dirnameOf "mover.exe" = ([], Throw 3%Z).
Proof. reflexivity. Qed.

Example mixed_separators : dirnameOf "C:/a\b/mover.exe" = ([], Return "C:/a\b").
Proof. reflexivity. Qed.

(** ** The shape of a run *)

Lemma handle_calls_app (tr1 tr2 : list event) :
  handle_calls (tr1 ++ tr2) = (handle_calls tr1 ++ handle_calls tr2)%list.
Proof.
  induction tr1 as [|ev tr1 IH]; [reflexivity|].
  destruct ev; simpl; now rewrite IH.
Qed.

Lemma closed_handles_app (tr1 tr2 : list event) :
  closed_handles (tr1 ++ tr2) = (closed_handles tr1 ++ closed_handles tr2)%list.
Proof.
  induction tr1 as [|ev tr1 IH]; [reflexivity|].
  destruct ev; simpl; now rewrite IH.
Qed.

Lemma opened_files_app (tr1 tr2 : list event) :
  opened_files (tr1 ++ tr2) = (opened_files tr1 ++ opened_files tr2)%list.
Proof.
  induction tr1 as [|ev tr1 IH]; [reflexivity|].
  destruct ev; simpl; now rewrite IH.
Qed.

Lemma prepare_command_trace (os : OS) (argv : list string) :
  preparation_trace (trace (prepare_command os argv)).
Proof.
  unfold prepare_command. rewrite (GetCurrentModuleName_eq os).
  destruct (result (GetCurrentModuleName os)) as [exe|e]; [|constructor].
  cbn [bind].
  destruct (dirnameOf_cases exe) as [[dir H]|H].
  - rewrite (GetPythonExecutable_eq os exe dir H), (FindPythonScript_eq exe dir H).
    cbv zeta. cbn [bind ret fst snd app trace].
    destruct (interpreter_candidate _) as [|c t] eqn:E; cbn [StdString.empty app].
    + constructor.
    + constructor. discriminate.
  - rewrite (GetPythonExecutable_throws os exe _ H). constructor.
Qed.

Lemma preparation_no_handles (tr : list event) :
  preparation_trace tr -> handle_calls tr = [] /\ closed_handles tr = [].
Proof. intros []; now split. Qed.

(** A run whose module name has a directory builds a command line. *)
Lemma prepare_command_returns (os : OS) (argv : list string) (exe dir : string) :
  result (GetCurrentModuleName os) = Return exe ->
  dirnameOf exe = ret dir ->
  exists interpreter,
    result (GetPythonExecutable os exe) = Return interpreter /\
    result (prepare_command os argv) =
      Return (build_command interpreter (dir ++ "\mover.py") argv) /\
    opened_files (trace (prepare_command os argv)) = [dir ++ "\mover.py"].
Proof.
  intros H D.
  pose proof (GetPythonExecutable_eq os exe dir D) as G. cbv zeta in G.
  eexists. split; [rewrite G; reflexivity|]. split.
  - apply (prepare_command_result os argv exe); [exact H | now rewrite G |].
    now rewrite (FindPythonScript_eq exe dir D).
  - unfold prepare_command. rewrite (GetCurrentModuleName_eq os), H. cbn [bind].
    rewrite G, (FindPythonScript_eq exe dir D). cbn [bind ret fst snd app trace].
    now destruct (StdString.empty _).
Qed.

Lemma dirnameOf_throw_separator_free (path : string) (e : Z) :
  dirnameOf path = throw e -> Spec.separator_free path.
Proof.
  unfold dirnameOf. intros H. apply separator_free_npos.
  now destruct (StdString.find_last_of path "\/").
Qed.

(** ** More on the first line *)

(** [firstLine.find(SHEBANG) == 0] holds exactly when the line starts with
    the marker. *)
Lemma find_at_start (s pat : string) :
  eqb_pos (StdString.find s pat) (Some 0) = String.prefix pat s.
Proof.
  destruct s as [|c s]; cbn [StdString.find];
    destruct (String.prefix pat _); try reflexivity.
  now destruct (StdString.find s pat).
Qed.

(** The candidate is a function of the first line alone. *)
Lemma candidate_of_first_line (content : string) :
  interpreter_candidate (Some content) =
  if String.prefix SHEBANG (until_newline content)
  then strip_and_trim (until_newline content)
  else until_newline content.
Proof.
  unfold interpreter_candidate, getline.
  destruct content as [|c content]; [reflexivity|].
  now rewrite find_at_start.
Qed.

Lemma all_blank_cons (c : ascii) (s : string) :
  all_blank (String c s) <-> Spec.is_blank c = true /\ all_blank s.
Proof.
  unfold all_blank. split.
  - intros H. split; [apply H, occurs_cons; now left|].
    intros d Hd. apply H, occurs_cons. now right.
  - intros [Hc Hs] d Hd. apply occurs_cons in Hd as [<-|Hd]; [exact Hc|now apply Hs].
Qed.

Lemma all_blank_empty : all_blank "".
Proof. intros c []. Qed.

Lemma find_first_not_of_blank (s : string) :
  StdString.find_first_not_of s extra_chars = None <-> all_blank s.
Proof.
  induction s as [|c s IH]; cbn [StdString.find_first_not_of].
  - split; [intros _; apply all_blank_empty | reflexivity].
  - rewrite mem_extra_chars, all_blank_cons.
    destruct (Spec.is_blank c).
    + destruct (StdString.find_first_not_of s extra_chars); simpl.
      * split; [discriminate|]. intros [_ H]. now apply IH in H.
      * split; [|reflexivity]. intros _. split; [reflexivity | now apply IH].
    + split; [discriminate | intros [H _]; discriminate].
Qed.

Lemma find_last_not_of_blank (s : string) :
  StdString.find_last_not_of s extra_chars = None <-> all_blank s.
Proof.
  induction s as [|c s IH]; cbn [StdString.find_last_not_of].
  - split; [intros _; apply all_blank_empty | reflexivity].
  - rewrite mem_extra_chars, all_blank_cons.
    destruct (StdString.find_last_not_of s extra_chars).
    + split; [discriminate|]. intros [_ H]. now apply IH in H.
    + destruct (Spec.is_blank c).
      * split; [|reflexivity]. intros _. split; [reflexivity | now apply IH].
      * split; [discriminate | intros [H _]; discriminate].
Qed.

Lemma find_first_not_of_split (s : string) (ltrim : nat) :
  StdString.find_first_not_of s extra_chars = Some ltrim ->
  exists pre c rest,
    s = pre ++ String c rest /\ String.length pre = ltrim /\
    all_blank pre /\ Spec.is_blank c = false.
Proof.
  revert ltrim; induction s as [|x s IH]; intros ltrim;
    cbn [StdString.find_first_not_of]; [discriminate|].
  rewrite mem_extra_chars. destruct (Spec.is_blank x) eqn:B.
  - destruct (StdString.find_first_not_of s extra_chars) as [i|]; [|discriminate].
    simpl. intros [= <-].
    destruct (IH i eq_refl) as (pre & c & rest & -> & L & P & C).
    exists (String x pre), c, rest. simpl. rewrite L.
    repeat split; try assumption. now apply all_blank_cons.
  - intros [= <-]. exists "", x, s. repeat split; try assumption.
    apply all_blank_empty.
Qed.

Lemma find_last_not_of_split (s : string) (rtrim : nat) :
  StdString.find_last_not_of s extra_chars = Some rtrim ->
  exists body c post,
    s = body ++ String c post /\ String.length body = rtrim /\
    Spec.is_blank c = false /\ all_blank post.
Proof.
  revert rtrim; induction s as [|x s IH]; intros rtrim;
    cbn [StdString.find_last_not_of]; [discriminate|].
  rewrite mem_extra_chars.
  destruct (StdString.find_last_not_of s extra_chars) as [j|] eqn:E.
  - intros [= <-].
    destruct (IH j eq_refl) as (body & c & post & -> & L & C & P).
    exists (String x body), c, post. simpl. rewrite L. now repeat split.
  - destruct (Spec.is_blank x) eqn:B; [discriminate|].
    intros [= <-]. exists "", x, s. repeat split; try assumption.
    now apply find_last_not_of_blank.
Qed.

(** ** Quotes on the command line *)

Lemma append_cancel_l (p x y : string) : p ++ x = p ++ y -> x = y.
Proof.
  induction p as [|c p IH]; simpl; [trivial|]. intros [= H]. now apply IH.
Qed.

Lemma concat_cons (x : string) (xs : list string) :
  String.concat "" (x :: xs) = x ++ String.concat "" xs.
Proof. destruct xs; simpl; [now rewrite append_empty_r | reflexivity]. Qed.

(** Two texts that end at their first double quote end at the same place. *)
Lemma split_at_quote (a b x y : string) :
  quote_free a -> quote_free b ->
  a ++ String Chars.dquote x = b ++ String Chars.dquote y ->
  a = b /\ x = y.
Proof.
  unfold quote_free. revert b; induction a as [|c a IH]; intros [|d b] Fa Fb; simpl.
  - intros [= H]. now split.
  - intros [= <- _]. elim Fb. apply occurs_cons. now left.
  - intros [= -> _]. elim Fa. apply occurs_cons. now left.
  - intros [= <- H].
    destruct (IH b) as [-> ->]; try assumption; [| |now split].
    + intros F. apply Fa, occurs_cons. now right.
    + intros F. apply Fb, occurs_cons. now right.
Qed.

Lemma spaced_arguments_cons (arg : string) (args : list string) :
  String.concat "" (map spaced_argument (arg :: args)) =
  String " " (String " " (String Chars.dquote
    (arg ++ String Chars.dquote (String.concat "" (map spaced_argument args))))).
Proof.
  cbn [map]. rewrite concat_cons.
  unfold spaced_argument at 1, GetDoubleQuotedString. simpl.
  now rewrite append_assoc.
Qed.

Lemma spaced_arguments_injective (args1 args2 : list string) :
  Forall quote_free args1 -> Forall quote_free args2 ->
  String.concat "" (map spaced_argument args1) =
  String.concat "" (map spaced_argument args2) ->
  args1 = args2.
Proof.
  intros F1; revert args2; induction F1 as [|a args1 Fa F1 IH];
    intros args2 F2; destruct F2 as [|b args2 Fb F2].
  - reflexivity.
  - rewrite spaced_arguments_cons. discriminate.
  - rewrite spaced_arguments_cons. discriminate.
  - rewrite !spaced_arguments_cons. intros [= H].
    destruct (split_at_quote _ _ _ _ Fa Fb H) as [-> E].
    f_equal. now apply IH.
Qed.

(** An internal failure always ends in status 1 with the failure line as
    the last write. *)
Lemma failure_returns_1 (os : OS) (argv : list string) (k : failure) :
  fails os argv k ->
  snd (main os argv) = 1%Z /\
  exists writes, launcher_stderr os argv = (writes ++ [failure_message])%list.
Proof.
  intros F. unfold launcher_stderr.
  pose proof (proj1 (prepare_command_quiet os argv)) as Q.
  destruct F as [e H | exe H S | command e P C].
  - rewrite (main_not_prepared os argv e)
      by now rewrite (prepare_command_unresolved os argv e H).
    cbn [fst snd]. split; [reflexivity|]. exists [].
    now rewrite stderr_writes_app, Q.
  - rewrite (main_not_prepared os argv Win32.ERROR_PATH_NOT_FOUND)
      by now rewrite (prepare_command_unparsed os argv exe H S).
    cbn [fst snd]. split; [reflexivity|]. exists [].
    now rewrite stderr_writes_app, Q.
  - rewrite (main_prepared os argv command P).
    rewrite (ExecuteCommand_failed os command e C). cbn [fst snd].
    split; [reflexivity|]. eexists [_].
    rewrite stderr_writes_app, Q. reflexivity.
Qed.

(** ** Blank remainders, C strings and complete runs *)


(** A string without NUL is printed whole. *)
Lemma c_str_whole (s : string) :
  ~ Spec.occurs Chars.nul s -> StdString.c_str s = s.
Proof.
  induction s as [|c s IH]; intros N; [reflexivity|]. simpl.
  destruct (Ascii.eqb c Chars.nul) eqn:E.
  - apply Ascii.eqb_eq in E. subst c. elim N. apply occurs_cons. now left.
  - rewrite IH; [reflexivity|]. intros F. apply N, occurs_cons. now right.
Qed.

Lemma c_str_stops_at_nul (a b : string) :
  ~ Spec.occurs Chars.nul a ->
  StdString.c_str (a ++ String Chars.nul b) = a.
Proof.
  induction a as [|c a IH]; intros N; [reflexivity|]. simpl.
  destruct (Ascii.eqb c Chars.nul) eqn:E.
  - apply Ascii.eqb_eq in E. subst c. elim N. apply occurs_cons. now left.
  - rewrite IH; [reflexivity|]. intros F. apply N, occurs_cons. now right.
Qed.

Lemma ExecuteCommand_opens_nothing (os : OS) (command : string) :
  opened_files (trace (ExecuteCommand os command true)) = [].
Proof.
  destruct (os_CreateProcess os command) as [e|process_info] eqn:C.
  - now rewrite (ExecuteCommand_failed os command e C).
  - now rewrite (ExecuteCommand_created os command true process_info C).
Qed.

(** The whole run of [main] on each internal failure. *)
Lemma failure_run (os : OS) (argv : list string) (k : failure) :
  fails os argv k ->
  main os argv =
  ((trace (prepare_command os argv) ++
    match k with
    | ProcessCreationError command e =>
        [EvCreateProcess command;
         EvStderr (if (e =? Win32.ERROR_FILE_NOT_FOUND)%Z
                   then not_found_message command
                   else create_failed_message command e)]
    | _ => []
    end ++ [EvStderr failure_message])%list, 1%Z).
Proof.
  intros F. destruct F as [e H | exe H S | command e P C].
  - now rewrite (main_not_prepared os argv e)
      by now rewrite (prepare_command_unresolved os argv e H).
  - now rewrite (main_not_prepared os argv Win32.ERROR_PATH_NOT_FOUND)
      by now rewrite (prepare_command_unparsed os argv exe H S).
  - rewrite (main_prepared os argv command P).
    now rewrite (ExecuteCommand_failed os command e C).
Qed.

(** The diagnostic names the command only up to its first NUL. *)
Example diagnostic_stops_at_nul :
  launcher_stderr
    (Examples.installation
       (Some (Examples.line (SHEBANG ++ "C:\Windows" ++ String Chars.nul "x")))
       ["C:\Windows" ++ String Chars.nul "x"] (CreateFails 5%Z) None)
    ["mover.exe"] =
  ["Error! CreateProcess for [" ++ String Chars.dquote "C:\Windows"
   ++ "] failed with error code: 5" ++ String Chars.newline "";
   failure_message].
Proof. reflexivity. Qed.

(** ** The launcher against its specification *)

(** C5.  For every executable path that holds a directory separator, the
    companion script path is the part of the path before its last separator
    followed by [\mover.py], whatever the depth or the drive letter. *)
Theorem FindPythonScript_companion (path : string) :
  Spec.has_separator path ->
  exists dir sep rest,
    path = dir ++ String sep rest /\ Spec.is_separator sep /\
    Spec.separator_free rest /\
    FindPythonScript path = ret (dir ++ "\mover.py").
Proof.
  intros H.
  destruct (dirnameOf_last_separator path H) as (dir & sep & rest & E & S & F & D).
  exists dir, sep, rest.
  split; [exact E|]. split; [exact S|]. split; [exact F|].
  now apply FindPythonScript_eq.
Qed.

Lemma FindPythonScript_companion_witness :
  exists dir sep rest,
    Examples.exe = dir ++ String sep rest /\ Spec.is_separator sep /\
    Spec.separator_free rest /\
    FindPythonScript Examples.exe = ret (dir ++ "\mover.py").
Proof.
  apply (FindPythonScript_companion Examples.exe).
  exists Chars.backslash. split.
  - left. reflexivity.
  - apply occursb_true. reflexivity.
Defined.

(** C6.  For every path without a directory separator the derivation of
    the companion path throws: no path is returned, by [dirnameOf], by
    [FindPythonScript] or by [GetPythonExecutable], and a launcher whose
    own module name is such a path ends with status 1 after the single
    failure line, having opened and spawned nothing. *)
Theorem companion_derivation_fails (path : string) :
  Spec.separator_free path ->
  dirnameOf path = throw Win32.ERROR_PATH_NOT_FOUND /\
  FindPythonScript path = throw Win32.ERROR_PATH_NOT_FOUND /\
  (forall os, GetPythonExecutable os path = throw Win32.ERROR_PATH_NOT_FOUND) /\
  (forall os argv,
      result (GetCurrentModuleName os) = Return path ->
      main os argv = ([EvGetModuleFileName; EvStderr failure_message], 1%Z) /\
      launcher_exit_code os argv = 1%Z).
Proof.
  intros F. pose proof (dirnameOf_throws path F) as D.
  split; [exact D|]. split; [now apply FindPythonScript_throws|].
  split; [intros os; now apply GetPythonExecutable_throws|].
  intros os argv H.
  assert (main os argv = ([EvGetModuleFileName; EvStderr failure_message], 1%Z)) as E.
  { rewrite (main_not_prepared os argv Win32.ERROR_PATH_NOT_FOUND);
      now rewrite (prepare_command_unparsed os argv path H F). }
  split; [exact E|]. unfold launcher_exit_code. now rewrite E.
Qed.

Lemma companion_derivation_fails_witness :
  dirnameOf "mover.exe" = throw Win32.ERROR_PATH_NOT_FOUND /\
  main Examples.bare_module_name ["mover.exe"] =
    ([EvGetModuleFileName; EvStderr failure_message], 1%Z).
Proof.
  assert (Spec.separator_free "mover.exe") as F.
  { intros c [-> | ->]; apply occursb_false; reflexivity. }
  destruct (companion_derivation_fails "mover.exe" F) as (D & _ & _ & M).
  split; [exact D|].
  exact (proj1 (M Examples.bare_module_name ["mover.exe"] eq_refl)).
Defined.

(** C9.  The script whose first line is read is the script the
    interpreter is asked to run.  For every executable path the launcher
    resolves, when [FindPythonScript] returns a path, it is [dirnameOf] of
    the executable followed by [\mover.py], it is the one file
    [GetPythonExecutable] opens and the one file the whole run opens, and
    it is the path that stands, quoted, after the interpreter on the
    command line handed to [CreateProcess].  When [FindPythonScript]
    throws, [GetPythonExecutable] throws the same value, and the run opens
    nothing and spawns nothing. *)
Theorem inspected_script_is_launched_script (os : OS) (argv : list string)
    (exeFullPath : string) :
  result (GetCurrentModuleName os) = Return exeFullPath ->
  match result (FindPythonScript exeFullPath) with
  | Return pythonScript =>
      (exists dir, dirnameOf exeFullPath = ret dir /\
                   pythonScript = dir ++ "\mover.py") /\
      opened_files (trace (GetPythonExecutable os exeFullPath)) = [pythonScript] /\
      opened_files (fst (main os argv)) = [pythonScript] /\
      exists pythonExecutable,
        result (GetPythonExecutable os exeFullPath) = Return pythonExecutable /\
        spawned_commands (fst (main os argv)) =
          [GetDoubleQuotedString pythonExecutable ++ " "
           ++ GetDoubleQuotedString pythonScript
           ++ String.concat "" (map spaced_argument (skipn 1 argv))]
  | Throw e =>
      result (GetPythonExecutable os exeFullPath) = Throw e /\
      opened_files (fst (main os argv)) = [] /\
      spawned_commands (fst (main os argv)) = []
  end.
Proof.
  intros G. destruct (dirnameOf_cases exeFullPath) as [[dir D]|D].
  - rewrite (FindPythonScript_eq _ _ D). cbn [result ret snd].
    destruct (prepare_command_returns os argv exeFullPath dir G D)
      as (interpreter & I & P & O).
    split; [now exists dir|]. split.
    { rewrite (GetPythonExecutable_eq os _ _ D). cbv zeta. cbn [trace fst].
      cbn [opened_files]. now destruct (StdString.empty _). }
    rewrite (main_prepared os argv _ P).
    pose proof (ExecuteCommand_spawned os
                  (build_command interpreter (dir ++ "\mover.py") argv)) as X.
    pose proof (ExecuteCommand_opens_nothing os
                  (build_command interpreter (dir ++ "\mover.py") argv)) as N.
    pose proof (proj2 (prepare_command_quiet os argv)) as Q.
    destruct (ExecuteCommand os _ true) as [tr [code|e]];
      unfold trace in X, N; cbn [fst] in X, N |- *.
    + split; [now rewrite opened_files_app, O, N|].
      exists interpreter. split; [exact I|].
      now rewrite spawned_commands_app, Q, X, build_command_laid_out.
    + split; [now rewrite !opened_files_app, O, N|].
      exists interpreter. split; [exact I|].
      now rewrite !spawned_commands_app, Q, X, build_command_laid_out.
  - rewrite (FindPythonScript_throws _ _ D). cbn [result throw snd].
    split; [now rewrite (GetPythonExecutable_throws os _ _ D)|].
    rewrite (main_not_prepared os argv Win32.ERROR_PATH_NOT_FOUND);
      rewrite (prepare_command_unparsed os argv exeFullPath G
                 (dirnameOf_throw_separator_free _ _ D));
      now split.
Qed.

Lemma inspected_script_is_launched_script_witness :
  opened_files (fst (main (Examples.with_shebang 0) ["mover.exe"; "a b"])) =
    [Examples.script] /\
  spawned_commands (fst (main (Examples.with_shebang 0) ["mover.exe"; "a b"])) =
    [GetDoubleQuotedString Examples.python39 ++ " "
     ++ GetDoubleQuotedString Examples.script
     ++ spaced_argument "a b"].
Proof.
  pose proof (inspected_script_is_launched_script (Examples.with_shebang 0)
                ["mover.exe"; "a b"] Examples.exe eq_refl) as H.
  change (result (FindPythonScript Examples.exe)) with (@Return string Examples.script) in H.
  destruct H as (_ & _ & O & pythonExecutable & I & X).
  split; [exact O|].
  injection I as <-. exact X.
Defined.

(** C7.  For every script whose first line is the marker [#!] followed by
    a remainder that, trimmed of leading and trailing spaces and tabs, is
    not empty and names an existing file, the interpreter chosen is that
    trimmed remainder exactly. *)
Theorem shebang_interpreter_honoured (os : OS) (exe dir content r : string) :
  dirnameOf exe = ret dir ->
  os_ifstream os (dir ++ "\mover.py") = Some content ->
  Spec.first_line content (SHEBANG ++ r) ->
  Spec.trim r <> "" ->
  os_GetFileAttributes os (Spec.trim r) <> Win32.INVALID_FILE_ATTRIBUTES ->
  result (GetPythonExecutable os exe) = Return (Spec.trim r).
Proof.
  intros H N F T X.
  rewrite (GetPythonExecutable_marker os exe dir content r H N F). cbv zeta.
  destruct (Spec.trim r) as [|c t] eqn:E; [now elim T|].
  cbn [StdString.empty negb andb]. unfold file_exists.
  apply Z.eqb_neq in X. now rewrite X.
Qed.

Lemma shebang_interpreter_honoured_witness :
  result (GetPythonExecutable (Examples.with_shebang 0) Examples.exe) =
  Return "C:\Python39\python.exe".
Proof.
  apply (shebang_interpreter_honoured (Examples.with_shebang 0) Examples.exe
           "C:\ros\bin"
           (Examples.line (SHEBANG ++ Examples.python39) ++ Examples.line "print(1)")
           Examples.python39).
  - reflexivity.
  - reflexivity.
  - split.
    + apply occursb_false. reflexivity.
    + right. exists (Examples.line "print(1)"). reflexivity.
  - discriminate.
  - discriminate.
Defined.

(** C1.  The launcher run on a script whose first line has no marker but
    names an existing file: that line, not [python.exe], comes back as the
    interpreter. *)
Theorem markerless_line_taken_as_interpreter :
  os_ifstream Examples.markerless Examples.script =
    Some (Examples.line Examples.python39 ++ Examples.line "print(1)") /\
  String.prefix SHEBANG Examples.python39 = false /\
  result (GetPythonExecutable Examples.markerless Examples.exe) =
    Return Examples.python39 /\
  Examples.python39 <> "python.exe".
Proof.
  split; [reflexivity|]. split; [reflexivity|]. split; [reflexivity|].
  discriminate.
Qed.



(** C4.  Whenever the child process is created and the system reports its
    exit code, the launcher's own exit code is that code, for every 32-bit
    value, and nothing is written to the error stream. *)
Theorem exit_code_relayed (os : OS) (argv : list string) (command : string)
    (process_info : PROCESS_INFORMATION) (code : Z) :
  result (prepare_command os argv) = Return command ->
  os_CreateProcess os command = CreateOk process_info ->
  os_GetExitCodeProcess os (hProcess process_info) = Some code ->
  Win32.DWORD_range code ->
  launcher_exit_code os argv = code /\ launcher_stderr os argv = [].
Proof.
  intros P C G R. unfold launcher_exit_code, launcher_stderr.
  rewrite (main_prepared os argv command P).
  rewrite (ExecuteCommand_created os command true process_info C), G.
  cbn [fst snd]. split; [now apply exit_status_to_int|].
  rewrite stderr_writes_app, (proj1 (prepare_command_quiet os argv)).
  reflexivity.
Qed.

Lemma exit_code_relayed_witness :
  launcher_exit_code (Examples.with_shebang 42) ["mover.exe"] = 42%Z /\
  launcher_stderr (Examples.with_shebang 42) ["mover.exe"] = [].
Proof.
  apply (exit_code_relayed (Examples.with_shebang 42) ["mover.exe"]
           (laid_out_command Examples.python39 Examples.script [])
           Examples.child 42%Z).
  - reflexivity.
  - reflexivity.
  - reflexivity.
  - unfold Win32.DWORD_range. lia.
Defined.

(** C10.  When the child process is created but its exit code cannot be
    retrieved, [ExecuteCommand] returns the initial [NO_ERROR]: the
    launcher exits with 0, throws nothing and writes nothing to the error
    stream. *)
Theorem exit_code_defaults_to_zero (os : OS) (argv : list string)
    (command : string) (process_info : PROCESS_INFORMATION) :
  result (prepare_command os argv) = Return command ->
  os_CreateProcess os command = CreateOk process_info ->
  os_GetExitCodeProcess os (hProcess process_info) = None ->
  result (ExecuteCommand os command true) = Return Win32.NO_ERROR /\
  launcher_exit_code os argv = 0%Z /\ launcher_stderr os argv = [].
Proof.
  intros P C G. unfold launcher_exit_code, launcher_stderr.
  rewrite (main_prepared os argv command P).
  rewrite (ExecuteCommand_created os command true process_info C), G.
  cbn [fst snd result]. split; [reflexivity|]. split; [reflexivity|].
  rewrite stderr_writes_app, (proj1 (prepare_command_quiet os argv)).
  reflexivity.
Qed.

Lemma exit_code_defaults_to_zero_witness :
  launcher_exit_code Examples.no_exit_code ["mover.exe"] = 0%Z /\
  launcher_stderr Examples.no_exit_code ["mover.exe"] = [].
Proof.
  apply (exit_code_defaults_to_zero Examples.no_exit_code ["mover.exe"]
           (laid_out_command "python.exe" Examples.script []) Examples.child).
  - reflexivity.
  - reflexivity.
  - reflexivity.
Defined.

(** C2, as the code has it.  Every internal failure ends the launcher with
    status 1.  When the module path cannot be resolved or holds no
    separator, the error stream receives the single failure line; when the
    child process cannot be created, it receives the message of
    [ExecuteCommand] about that command first and the failure line after
    it. *)
Theorem internal_failure_diagnostics (os : OS) (argv : list string) (k : failure) :
  fails os argv k ->
  launcher_exit_code os argv = 1%Z /\ launcher_stderr os argv = diagnostics k.
Proof.
  intros F. unfold launcher_exit_code, launcher_stderr.
  destruct F as [e H | exe H S | command e P C].
  - rewrite (main_not_prepared os argv e);
      now rewrite (prepare_command_unresolved os argv e H).
  - rewrite (main_not_prepared os argv Win32.ERROR_PATH_NOT_FOUND);
      now rewrite (prepare_command_unparsed os argv exe H S).
  - rewrite (main_prepared os argv command P).
    rewrite (ExecuteCommand_failed os command e C). cbn [fst snd].
    split; [reflexivity|].
    rewrite stderr_writes_app, (proj1 (prepare_command_quiet os argv)).
    reflexivity.
Qed.

Lemma internal_failure_diagnostics_witness :
  launcher_exit_code Examples.no_interpreter ["mover.exe"] = 1%Z /\
  launcher_stderr Examples.no_interpreter ["mover.exe"] =
    [not_found_message (laid_out_command "python.exe" Examples.script []);
     failure_message].
Proof.
  apply (internal_failure_diagnostics Examples.no_interpreter ["mover.exe"]
           (ProcessCreationError
              (laid_out_command "python.exe" Examples.script [])
              Win32.ERROR_FILE_NOT_FOUND)).
  apply fails_creation; reflexivity.
Defined.

(** C2, as the claim has it, fails: when no interpreter can be spawned the
    launcher hits a child-process creation failure and writes two lines to
    the error stream, not one. *)
Lemma creation_failure_two_lines :
  fails Examples.no_interpreter ["mover.exe"]
    (ProcessCreationError (laid_out_command "python.exe" Examples.script [])
       Win32.ERROR_FILE_NOT_FOUND) /\
  stderr_lines (launcher_stderr Examples.no_interpreter ["mover.exe"]) = 2 /\
  stderr_lines (launcher_stderr Examples.no_interpreter ["mover.exe"]) <> 1.
Proof.
  split; [apply fails_creation; reflexivity|].
  split; [reflexivity | discriminate].
Qed.

(** C3, as the code has it.  The command line handed to [CreateProcess] is
    the quoted interpreter, one space, the quoted script and then, for each
    forwarded argument in the original order, two spaces and the argument
    in double quotes. *)
Theorem command_line_layout (os : OS) (argv : list string)
    (exe interpreter script : string) :
  result (GetCurrentModuleName os) = Return exe ->
  result (GetPythonExecutable os exe) = Return interpreter ->
  result (FindPythonScript exe) = Return script ->
  spawned_commands (fst (main os argv)) =
  [GetDoubleQuotedString interpreter ++ " " ++ GetDoubleQuotedString script
   ++ String.concat "" (map (fun arg => "  " ++ GetDoubleQuotedString arg)
                           (skipn 1 argv))].
Proof.
  intros H1 H2 H3.
  pose proof (prepare_command_result os argv exe interpreter script H1 H2 H3) as P.
  rewrite (main_prepared os argv _ P).
  pose proof (ExecuteCommand_spawned os (build_command interpreter script argv)) as X.
  destruct (ExecuteCommand os (build_command interpreter script argv) true)
    as [tr [code|e]]; unfold trace in X; cbn [fst] in X |- *;
    rewrite ?spawned_commands_app, X, (proj2 (prepare_command_quiet os argv));
    cbn [app spawned_commands]; now rewrite build_command_laid_out.
Qed.

Lemma command_line_layout_witness :
  spawned_commands (fst (main (Examples.with_shebang 0) ["mover.exe"; "a b"; "c"])) =
  [GetDoubleQuotedString Examples.python39 ++ " "
   ++ GetDoubleQuotedString Examples.script
   ++ "  " ++ GetDoubleQuotedString "a b"
   ++ "  " ++ GetDoubleQuotedString "c"].
Proof.
  apply (command_line_layout (Examples.with_shebang 0) ["mover.exe"; "a b"; "c"]
           Examples.exe Examples.python39 Examples.script);
    reflexivity.
Defined.

(** C3, as the claim has it, fails: with the forwarded arguments [a b] and
    [c] the command line is not the one made of the quoted parts with one
    space between neighbours. *)
Lemma forwarded_arguments_two_spaces :
  result (GetPythonExecutable (Examples.with_shebang 0) Examples.exe) =
    Return Examples.python39 /\
  result (FindPythonScript Examples.exe) = Return Examples.script /\
  spawned_commands (fst (main (Examples.with_shebang 0) ["mover.exe"; "a b"; "c"])) <>
  [Spec.command_line Examples.python39 Examples.script ["a b"; "c"]].
Proof.
  split; [reflexivity|]. split; [reflexivity|].
  intros H. vm_compute in H. discriminate H.
Qed.

(** ** Further properties of the launcher *)

(** X1.  When [GetModuleFileName] answers 0 or [MAX_PATH], the launcher
    stops there: it opens no file, tests no path and spawns nothing, writes
    the one failure line and returns 1. *)
Theorem resolution_failure_stops_early (os : OS) (argv : list string)
    (res : Z) (moduleName : string) (last_error : Z) :
  os_GetModuleFileName os = (res, moduleName, last_error) ->
  res = 0%Z \/ res = Win32.MAX_PATH ->
  main os argv = ([EvGetModuleFileName; EvStderr failure_message], 1%Z).
Proof.
  intros G R.
  assert (result (GetCurrentModuleName os) = Throw last_error) as H.
  { unfold GetCurrentModuleName. rewrite G. cbn [emit bind].
    destruct R as [-> | ->]; reflexivity. }
  rewrite (main_not_prepared os argv last_error);
    now rewrite (prepare_command_unresolved os argv last_error H).
Qed.

Lemma resolution_failure_stops_early_witness :
  main {| os_GetModuleFileName := (260%Z, Examples.exe, 122%Z);
          os_ifstream := fun _ => Some "print(1)";
          os_GetFileAttributes := fun _ => 32%Z;
          os_CreateProcess := fun _ => CreateOk Examples.child;
          os_GetExitCodeProcess := fun _ => Some 0%Z |} ["mover.exe"] =
  ([EvGetModuleFileName; EvStderr failure_message], 1%Z).
Proof.
  apply (resolution_failure_stops_early _ ["mover.exe"] 260%Z Examples.exe 122%Z).
  - reflexivity.
  - right. reflexivity.
Defined.

(** X2.  [main] has four outcomes and no other.  Either it hits one of
    the three internal failures: it then returns 1, writes the diagnostics
    of that failure, touches no process handle, and has spawned nothing
    unless the failure is that of the spawn itself.  Or it gets a child
    process: it then writes nothing, has spawned the command it built,
    waits, queries the exit code, closes both handles, and returns the code
    stored by the query, or [NO_ERROR] when the query stored none. *)
Theorem main_outcomes (os : OS) (argv : list string) :
  (exists k,
      fails os argv k /\
      snd (main os argv) = 1%Z /\
      stderr_writes (fst (main os argv)) = diagnostics k /\
      handle_calls (fst (main os argv)) = [] /\
      spawned_commands (fst (main os argv)) =
        match k with
        | ProcessCreationError command _ => [command]
        | _ => []
        end) \/
  (exists command process_info,
      child_created os argv command process_info /\
      snd (main os argv) =
        Win32.to_int match os_GetExitCodeProcess os (hProcess process_info) with
                     | Some code => code
                     | None => Win32.NO_ERROR
                     end /\
      stderr_writes (fst (main os argv)) = [] /\
      handle_calls (fst (main os argv)) =
        [EvWaitForSingleObject (hProcess process_info);
         EvGetExitCodeProcess (hProcess process_info);
         EvCloseHandle (hProcess process_info);
         EvCloseHandle (hThread process_info)] /\
      spawned_commands (fst (main os argv)) = [command]).
Proof.
  pose proof (prepare_command_quiet os argv) as [Qe Qs].
  pose proof (proj1 (preparation_no_handles _ (prepare_command_trace os argv))) as Qh.
  assert (forall k, fails os argv k ->
            snd (main os argv) = 1%Z /\
            stderr_writes (fst (main os argv)) = diagnostics k /\
            handle_calls (fst (main os argv)) = [] /\
            spawned_commands (fst (main os argv)) =
              match k with
              | ProcessCreationError command _ => [command]
              | _ => []
              end) as Failure.
  { intros k F. rewrite (failure_run os argv k F). cbn [fst snd].
    rewrite !stderr_writes_app, !handle_calls_app, !spawned_commands_app, Qe, Qh, Qs.
    destruct k; now repeat split. }
  destruct (result (GetCurrentModuleName os)) as [exe|e] eqn:G.
  - destruct (dirnameOf_cases exe) as [[dir D]|D].
    + destruct (prepare_command_returns os argv exe dir G D) as (i & _ & P & _).
      destruct (os_CreateProcess os (build_command i (dir ++ "\mover.py") argv))
        as [e|process_info] eqn:C.
      * left. eexists. split; [exact (fails_creation os argv _ e P C)|].
        apply Failure. exact (fails_creation os argv _ e P C).
      * right. eexists. exists process_info. split; [split; [exact P | exact C]|].
        rewrite (main_prepared os argv _ P).
        rewrite (ExecuteCommand_created os _ true process_info C). cbn [fst snd].
        rewrite !stderr_writes_app, !handle_calls_app, !spawned_commands_app, Qe, Qh, Qs.
        now repeat split.
    + left. exists (PathParseError exe).
      pose proof (fails_parse os argv exe G (dirnameOf_throw_separator_free _ _ D)) as F.
      split; [exact F | now apply Failure].
  - left. exists (PathResolutionError e).
    pose proof (fails_resolution os argv e G) as F.
    split; [exact F | now apply Failure].
Qed.

(** X3.  Once the child process exists, the run ends with exactly these
    calls, in this order: the spawn, the wait on the process, the query of
    its exit code, and the closing of the process handle and of the thread
    handle; each handle is closed once. *)
Theorem handles_released_after_wait (os : OS) (argv : list string)
    (command : string) (process_info : PROCESS_INFORMATION) :
  child_created os argv command process_info ->
  fst (main os argv) =
    (trace (prepare_command os argv) ++
     [EvCreateProcess command;
      EvWaitForSingleObject (hProcess process_info);
      EvGetExitCodeProcess (hProcess process_info);
      EvCloseHandle (hProcess process_info);
      EvCloseHandle (hThread process_info)])%list /\
  closed_handles (fst (main os argv)) =
    [hProcess process_info; hThread process_info].
Proof.
  intros [P C]. rewrite (main_prepared os argv command P).
  rewrite (ExecuteCommand_created os command true process_info C). cbn [fst].
  split; [reflexivity|].
  rewrite closed_handles_app.
  now rewrite (proj2 (preparation_no_handles _ (prepare_command_trace os argv))).
Qed.

Lemma handles_released_after_wait_witness :
  closed_handles (fst (main (Examples.with_shebang 42) ["mover.exe"])) =
  [hProcess Examples.child; hThread Examples.child].
Proof.
  apply (handles_released_after_wait (Examples.with_shebang 42) ["mover.exe"]
           (laid_out_command Examples.python39 Examples.script [])
           Examples.child).
  split; reflexivity.
Defined.

(** X4.  On every internal failure the launcher makes no call on a process
    handle: it waits on nothing, queries no exit code and closes nothing. *)
Theorem no_handle_calls_on_failure (os : OS) (argv : list string) (k : failure) :
  fails os argv k -> handle_calls (fst (main os argv)) = [].
Proof.
  intros F.
  pose proof (proj1 (preparation_no_handles _ (prepare_command_trace os argv))) as Q.
  destruct F as [e H | exe H S | command e P C].
  - rewrite (main_not_prepared os argv e)
      by now rewrite (prepare_command_unresolved os argv e H).
    cbn [fst]. rewrite handle_calls_app, Q. reflexivity.
  - rewrite (main_not_prepared os argv Win32.ERROR_PATH_NOT_FOUND)
      by now rewrite (prepare_command_unparsed os argv exe H S).
    cbn [fst]. rewrite handle_calls_app, Q. reflexivity.
  - rewrite (main_prepared os argv command P).
    rewrite (ExecuteCommand_failed os command e C). cbn [fst].
    rewrite handle_calls_app, Q. reflexivity.
Qed.

Lemma no_handle_calls_on_failure_witness :
  handle_calls (fst (main Examples.no_interpreter ["mover.exe"])) = [].
Proof.
  apply (no_handle_calls_on_failure Examples.no_interpreter ["mover.exe"]
           (ProcessCreationError
              (laid_out_command "python.exe" Examples.script [])
              Win32.ERROR_FILE_NOT_FOUND)).
  apply fails_creation; reflexivity.
Defined.

(** X5.  A run asks for its module name first, opens at most one file and
    spawns at most one command; when it spawns, the command is the one it
    prepared and the one file it opened before is the companion script. *)
Theorem at_most_one_spawn (os : OS) (argv : list string) :
  (exists rest, fst (main os argv) = EvGetModuleFileName :: rest) /\
  (length (opened_files (fst (main os argv))) <= 1)%nat /\
  (spawned_commands (fst (main os argv)) = [] \/
   exists command exe dir,
     spawned_commands (fst (main os argv)) = [command] /\
     result (prepare_command os argv) = Return command /\
     result (GetCurrentModuleName os) = Return exe /\
     dirnameOf exe = ret dir /\
     opened_files (fst (main os argv)) = [dir ++ "\mover.py"]).
Proof.
  pose proof (prepare_command_trace os argv) as T.
  pose proof (prepare_command_quiet os argv) as [_ Q].
  destruct (result (prepare_command os argv)) as [command|e] eqn:P.
  - rewrite (main_prepared os argv command P).
    pose proof (ExecuteCommand_spawned os command) as X.
    assert (opened_files (trace (ExecuteCommand os command true)) = []) as O.
    { destruct (os_CreateProcess os command) as [e|process_info] eqn:C.
      - now rewrite (ExecuteCommand_failed os command e C).
      - now rewrite (ExecuteCommand_created os command true process_info C). }
    assert (exists exe dir,
               result (GetCurrentModuleName os) = Return exe /\
               dirnameOf exe = ret dir /\
               opened_files (trace (prepare_command os argv)) = [dir ++ "\mover.py"])
      as (exe & dir & H & D & OP).
    { destruct (result (GetCurrentModuleName os)) as [exe|e] eqn:H.
      - destruct (dirnameOf_cases exe) as [[dir D]|D].
        + exists exe, dir.
          destruct (prepare_command_returns os argv exe dir H D) as (_ & _ & _ & OP).
          now repeat split.
        + rewrite (prepare_command_unparsed os argv exe H
                     (dirnameOf_throw_separator_free _ _ D)) in P. discriminate.
      - rewrite (prepare_command_unresolved os argv e H) in P. discriminate. }
    destruct (ExecuteCommand os command true) as [tr [code|e]];
      unfold trace in X, O; cbn [fst] in X, O |- *.
    + split; [destruct T; now eexists|].
      rewrite opened_files_app, spawned_commands_app, O, X, Q, OP.
      split; [simpl; lia|]. right. exists command, exe, dir. now repeat split.
    + split; [destruct T; now eexists|].
      rewrite !opened_files_app, !spawned_commands_app, O, X, Q, OP.
      split; [simpl; lia|]. right. exists command, exe, dir. now repeat split.
  - rewrite (main_not_prepared os argv e P). cbn [fst].
    split; [destruct T; now eexists|].
    rewrite opened_files_app, spawned_commands_app, Q.
    split; [destruct T; simpl; lia | now left].
Qed.

(** X6.  [ExecuteCommand] without [printError] writes nothing to the error
    stream; apart from that it makes the same calls and ends the same way
    as with it. *)
Theorem printError_only_prints (os : OS) (command : string) :
  stderr_writes (trace (ExecuteCommand os command false)) = [] /\
  result (ExecuteCommand os command false) =
    result (ExecuteCommand os command true) /\
  trace (ExecuteCommand os command false) =
    system_calls (trace (ExecuteCommand os command true)).
Proof.
  destruct (os_CreateProcess os command) as [e|process_info] eqn:C.
  - rewrite (ExecuteCommand_failed os command e C).
    unfold ExecuteCommand. rewrite C.
    destruct (e =? Win32.ERROR_FILE_NOT_FOUND)%Z; now repeat split.
  - rewrite !(ExecuteCommand_created os command _ process_info C).
    now repeat split.
Qed.

(** X7.  Forwarded arguments without a double quote can be told apart on
    the command line: for the same interpreter and script, two different
    lists of such arguments give two different command lines, whatever
    [argv[0]] is. *)
Theorem quote_free_arguments_distinct (interpreter script a0 b0 : string)
    (args1 args2 : list string) :
  Forall quote_free args1 -> Forall quote_free args2 ->
  args1 <> args2 ->
  build_command interpreter script (a0 :: args1) <>
  build_command interpreter script (b0 :: args2).
Proof.
  intros F1 F2 N H. apply N.
  rewrite !build_command_laid_out in H. cbn [skipn] in H.
  unfold laid_out_command in H.
  do 3 apply append_cancel_l in H.
  now apply spaced_arguments_injective.
Qed.

Lemma quote_free_arguments_distinct_witness :
  build_command "python.exe" Examples.script ["mover.exe"; "a b"; "c"] <>
  build_command "python.exe" Examples.script ["mover.exe"; "a"; "b c"].
Proof.
  apply (quote_free_arguments_distinct "python.exe" Examples.script
           "mover.exe" "mover.exe" ["a b"; "c"] ["a"; "b c"]).
  - repeat constructor; apply occursb_false; reflexivity.
  - repeat constructor; apply occursb_false; reflexivity.
  - discriminate.
Defined.

(** X8.  Quotes inside an argument are not escaped: one forwarded argument
    that holds a double quote, two spaces and a double quote gives the same
    command line as the two arguments on either side of them. *)
Theorem embedded_quotes_split_argument (interpreter script a0 a b : string)
    (rest : list string) :
  build_command interpreter script (a0 :: (a ++ quote_gap ++ b) :: rest) =
  build_command interpreter script (a0 :: a :: b :: rest).
Proof.
  rewrite !build_command_laid_out. cbn [skipn]. unfold laid_out_command.
  do 3 f_equal. rewrite !spaced_arguments_cons. do 3 f_equal.
  rewrite !append_assoc. reflexivity.
Qed.

(** X9.  [GetPythonExecutable] never returns an empty interpreter: it
    returns [python.exe], or a non-empty text for which the one
    [GetFileAttributes] call it made succeeded.  It throws only
    [ERROR_PATH_NOT_FOUND], only for a path without separator, and before
    any call. *)
Theorem interpreter_default_or_existing (os : OS) (exeFullPath : string) :
  match GetPythonExecutable os exeFullPath with
  | (tr, Return interpreter) =>
      interpreter <> "" /\
      (interpreter = "python.exe" \/
       (file_exists os interpreter = true /\ tested_paths tr = [interpreter]))
  | (tr, Throw e) =>
      e = Win32.ERROR_PATH_NOT_FOUND /\ tr = [] /\
      Spec.separator_free exeFullPath
  end.
Proof.
  destruct (dirnameOf_cases exeFullPath) as [[dir D]|D].
  - rewrite (GetPythonExecutable_eq os exeFullPath dir D). cbv zeta.
    destruct (interpreter_candidate _) as [|c t]; cbn [StdString.empty negb andb].
    + split; [discriminate | now left].
    + destruct (file_exists os (String c t)) eqn:X.
      * split; [discriminate|]. right. now split.
      * split; [discriminate | now left].
  - rewrite (GetPythonExecutable_throws os exeFullPath _ D).
    repeat split. exact (dirnameOf_throw_separator_free _ _ D).
Qed.

(** X10.  Only the first line of the script counts: two systems that agree
    on file attributes and whose scripts have the same first line make
    [GetPythonExecutable] do the same calls and return the same
    interpreter. *)
Theorem only_first_line_matters (os1 os2 : OS) (exe dir content1 content2 : string) :
  dirnameOf exe = ret dir ->
  os_ifstream os1 (dir ++ "\mover.py") = Some content1 ->
  os_ifstream os2 (dir ++ "\mover.py") = Some content2 ->
  until_newline content1 = until_newline content2 ->
  (forall path, os_GetFileAttributes os1 path = os_GetFileAttributes os2 path) ->
  GetPythonExecutable os1 exe = GetPythonExecutable os2 exe.
Proof.
  intros D S1 S2 L A.
  rewrite (GetPythonExecutable_eq os1 exe dir D), (GetPythonExecutable_eq os2 exe dir D).
  cbv zeta. rewrite S1, S2, !candidate_of_first_line, L.
  unfold file_exists. now rewrite A.
Qed.

Lemma only_first_line_matters_witness :
  GetPythonExecutable
    (Examples.installation
       (Some (Examples.line (SHEBANG ++ Examples.python39) ++ "print(1)"))
       [Examples.python39] (CreateOk Examples.child) (Some 0%Z))
    Examples.exe =
  GetPythonExecutable
    (Examples.installation
       (Some (Examples.line (SHEBANG ++ Examples.python39)
              ++ Examples.line (SHEBANG ++ "C:\other.exe") ++ "import sys"))
       [Examples.python39] (CreateFails 5%Z) None)
    Examples.exe.
Proof.
  apply (only_first_line_matters _ _ Examples.exe "C:\ros\bin"
           (Examples.line (SHEBANG ++ Examples.python39) ++ "print(1)")
           (Examples.line (SHEBANG ++ Examples.python39)
            ++ Examples.line (SHEBANG ++ "C:\other.exe") ++ "import sys")).
  - reflexivity.
  - reflexivity.
  - reflexivity.
  - reflexivity.
  - intros path. reflexivity.
Defined.

(** X11.  On a marker line whose remainder holds a character other than
    space and tab, the stripping and trimming leaves the part of the
    remainder between its leading and its trailing blanks: the remainder is
    blanks, then the result, then blanks, and the result starts and ends
    with a non-blank character. *)
Theorem trimmed_between_blanks (r : string) :
  (exists c, Spec.occurs c r /\ Spec.is_blank c = false) ->
  exists pre post,
    r = pre ++ strip_and_trim (SHEBANG ++ r) ++ post /\
    all_blank pre /\ all_blank post /\
    starts_non_blank (strip_and_trim (SHEBANG ++ r)) /\
    ends_non_blank (strip_and_trim (SHEBANG ++ r)).
Proof.
  intros (c0 & O & B0).
  unfold strip_and_trim.
  cbn [SHEBANG String.length append StdString.erase_front StdString.drop].
  destruct (StdString.find_first_not_of r extra_chars) as [ltrim|] eqn:L.
  2:{ apply find_first_not_of_blank in L. rewrite (L c0 O) in B0. discriminate. }
  destruct (find_first_not_of_split r ltrim L) as (pre & c & rest & -> & <- & P & C).
  unfold StdString.erase_front. rewrite drop_append.
  destruct (StdString.find_last_not_of (String c rest) extra_chars) as [rtrim|] eqn:R.
  2:{ apply find_last_not_of_blank, all_blank_cons in R. destruct R as [R _].
      rewrite R in C. discriminate. }
  destruct (find_last_not_of_split _ rtrim R) as (body & d & post & E & <- & Dn & Q).
  rewrite E. unfold StdString.erase_from.
  assert (StdString.take (String.length body + 1) (body ++ String d post) =
          body ++ String d "") as T.
  { clear. induction body as [|x body IH]; simpl; [now destruct post|].
    now rewrite IH. }
  rewrite T. exists pre, post. split; [|split; [exact P|split; [exact Q|split]]].
  - now rewrite append_assoc.
  - destruct body as [|x body]; simpl in E |- *.
    + exists d, "". now split.
    + injection E as <- _. exists c, (body ++ String d ""). now split.
  - exists body, d. now split.
Qed.

Lemma trimmed_between_blanks_witness :
  exists pre post,
    "  /does/not/exist  " =
      pre ++ strip_and_trim (SHEBANG ++ "  /does/not/exist  ") ++ post /\
    all_blank pre /\ all_blank post /\
    starts_non_blank (strip_and_trim (SHEBANG ++ "  /does/not/exist  ")) /\
    ends_non_blank (strip_and_trim (SHEBANG ++ "  /does/not/exist  ")).
Proof.
  apply (trimmed_between_blanks "  /does/not/exist  ").
  exists "/"%char. split.
  - apply occursb_true. reflexivity.
  - reflexivity.
Defined.

(** X12.  On a marker line whose remainder holds only spaces and tabs the
    trimming removes nothing: the remainder is kept as it is. *)
Theorem blank_remainder_kept (r : string) :
  all_blank r -> strip_and_trim (SHEBANG ++ r) = r.
Proof.
  intros B. unfold strip_and_trim.
  cbn [SHEBANG String.length append StdString.erase_front StdString.drop].
  rewrite (proj2 (find_first_not_of_blank r) B).
  now rewrite (proj2 (find_last_not_of_blank r) B).
Qed.

Lemma blank_remainder_kept_witness :
  strip_and_trim (SHEBANG ++ String Chars.space (String Chars.tab "")) =
  String Chars.space (String Chars.tab "").
Proof.
  apply (blank_remainder_kept (String Chars.space (String Chars.tab ""))).
  apply all_blank_cons. split; [reflexivity|].
  apply all_blank_cons. split; [reflexivity|].
  apply all_blank_empty.
Defined.

(** X13.  When the companion script cannot be opened, or is empty, the
    interpreter is [python.exe] and no path is tested for existence. *)
Theorem unreadable_or_empty_script_default (os : OS) (exe dir : string) :
  dirnameOf exe = ret dir ->
  os_ifstream os (dir ++ "\mover.py") = None \/
  os_ifstream os (dir ++ "\mover.py") = Some "" ->
  GetPythonExecutable os exe = ([EvOpen (dir ++ "\mover.py")], Return "python.exe").
Proof.
  intros D S. rewrite (GetPythonExecutable_eq os exe dir D). cbv zeta.
  destruct S as [-> | ->]; reflexivity.
Qed.

Lemma unreadable_or_empty_script_default_witness :
  GetPythonExecutable
    (Examples.installation (Some "") [Examples.python39; ""]
       (CreateOk Examples.child) (Some 0%Z))
    Examples.exe =
  ([EvOpen Examples.script], Return "python.exe").
Proof.
  apply (unreadable_or_empty_script_default _ Examples.exe "C:\ros\bin").
  - reflexivity.
  - right. reflexivity.
Defined.

(** X14.  On a marker line whose remainder is empty, or whose trimmed
    remainder is not empty and names nothing that exists, the interpreter
    is [python.exe]. *)
Theorem shebang_without_existing_path_default (os : OS)
    (exe dir content r : string) :
  dirnameOf exe = ret dir ->
  os_ifstream os (dir ++ "\mover.py") = Some content ->
  Spec.first_line content (SHEBANG ++ r) ->
  r = "" \/ (Spec.trim r <> "" /\ file_exists os (Spec.trim r) = false) ->
  result (GetPythonExecutable os exe) = Return "python.exe".
Proof.
  intros D S F H.
  apply (GetPythonExecutable_marker_fallback os exe dir content r D S F).
  - intros T. destruct H as [->|[N _]]; [now left | now elim N].
  - intros N. destruct H as [->|[_ X]]; [now elim N | exact X].
Qed.

Lemma shebang_without_existing_path_default_witness :
  result (GetPythonExecutable
            (Examples.installation
               (Some (Examples.line (SHEBANG ++ "  /does/not/exist  ") ++ "print(1)"))
               [Examples.python39] (CreateOk Examples.child) (Some 0%Z))
            Examples.exe) = Return "python.exe".
Proof.
  apply (shebang_without_existing_path_default _ Examples.exe "C:\ros\bin"
           (Examples.line (SHEBANG ++ "  /does/not/exist  ") ++ "print(1)")
           "  /does/not/exist  ").
  - reflexivity.
  - reflexivity.
  - split.
    + apply occursb_false. reflexivity.
    + right. exists "print(1)". reflexivity.
  - right. split; [discriminate | reflexivity].
Defined.

(** X15.  A non-empty first line that does not start with the marker is
    tested for existence as it is, blanks included: it is returned as the
    interpreter when the test succeeds, and [python.exe] is returned when
    it fails. *)
Theorem markerless_line_tested_as_is (os : OS) (exe dir content l : string) :
  dirnameOf exe = ret dir ->
  os_ifstream os (dir ++ "\mover.py") = Some content ->
  Spec.first_line content l ->
  String.prefix SHEBANG l = false ->
  l <> "" ->
  GetPythonExecutable os exe =
  ([EvOpen (dir ++ "\mover.py"); EvGetFileAttributes l],
   Return (if file_exists os l then l else "python.exe")).
Proof.
  intros D S F P N.
  pose proof (until_newline_first_line content l F) as U.
  rewrite (GetPythonExecutable_eq os exe dir D). cbv zeta.
  rewrite S, candidate_of_first_line, U, P.
  destruct l as [|c l]; [now elim N|]. reflexivity.
Qed.

Lemma markerless_line_tested_as_is_witness :
  GetPythonExecutable
    (Examples.installation (Some (Examples.line " print(1)"))
       [Examples.python39] (CreateOk Examples.child) (Some 0%Z))
    Examples.exe =
  ([EvOpen Examples.script; EvGetFileAttributes " print(1)"],
   Return "python.exe").
Proof.
  apply (markerless_line_tested_as_is
           (Examples.installation (Some (Examples.line " print(1)"))
              [Examples.python39] (CreateOk Examples.child) (Some 0%Z))
           Examples.exe "C:\ros\bin"
           (Examples.line " print(1)") " print(1)").
  - reflexivity.
  - reflexivity.
  - split.
    + apply occursb_false. reflexivity.
    + right. exists "". reflexivity.
  - reflexivity.
  - discriminate.
Defined.

(** X16.  The launcher never reports anything but 1 without a child: a
    run whose exit status differs from 1, or that wrote nothing to the
    error stream, created a child process. *)
Theorem quiet_or_not_1_means_child (os : OS) (argv : list string) :
  launcher_exit_code os argv <> 1%Z \/ launcher_stderr os argv = [] ->
  exists command process_info, child_created os argv command process_info.
Proof.
  intros H.
  destruct (result (GetCurrentModuleName os)) as [exe|e] eqn:G.
  - destruct (dirnameOf_cases exe) as [[dir D]|D].
    + destruct (prepare_command_returns os argv exe dir G D) as (i & _ & P & _).
      destruct (os_CreateProcess os (build_command i (dir ++ "\mover.py") argv))
        as [e|process_info] eqn:C.
      * exfalso.
        destruct (failure_returns_1 os argv _ (fails_creation os argv _ e P C))
          as [R [w W]].
        destruct H as [H|H].
        -- apply H. unfold launcher_exit_code. now rewrite R.
        -- rewrite H in W. now destruct w.
      * eexists. eexists. split; [exact P | exact C].
    + exfalso.
      destruct (failure_returns_1 os argv _
                  (fails_parse os argv exe G (dirnameOf_throw_separator_free _ _ D)))
        as [R [w W]].
      destruct H as [H|H].
      * apply H. unfold launcher_exit_code. now rewrite R.
      * rewrite H in W. now destruct w.
  - exfalso.
    destruct (failure_returns_1 os argv _ (fails_resolution os argv e G)) as [R [w W]].
    destruct H as [H|H].
    + apply H. unfold launcher_exit_code. now rewrite R.
    + rewrite H in W. now destruct w.
Qed.

Lemma quiet_or_not_1_means_child_witness :
  exists command process_info,
    child_created (Examples.with_shebang 42) ["mover.exe"] command process_info.
Proof.
  apply (quiet_or_not_1_means_child (Examples.with_shebang 42) ["mover.exe"]).
  left. discriminate.
Defined.

(** X17.  The companion script lies in the directory of the executable:
    taking the directory of the path [FindPythonScript] returns gives the
    directory of the executable path back. *)
Theorem script_in_executable_directory (exeFullPath pythonScript : string) :
  result (FindPythonScript exeFullPath) = Return pythonScript ->
  dirnameOf pythonScript = dirnameOf exeFullPath.
Proof.
  intros H. destruct (dirnameOf_cases exeFullPath) as [[dir D]|D].
  - rewrite (FindPythonScript_eq _ _ D) in H. injection H as <-. rewrite D.
    unfold dirnameOf.
    change (dir ++ "\mover.py") with (dir ++ String Chars.backslash "mover.py").
    rewrite (find_last_of_append dir "mover.py" "\/" Chars.backslash);
      [|reflexivity|reflexivity].
    unfold StdString.substr0. now rewrite take_append.
  - rewrite (FindPythonScript_throws _ _ D) in H. discriminate.
Qed.

Lemma script_in_executable_directory_witness :
  dirnameOf "C:/ros/bin\mover.py" = dirnameOf "C:/ros/bin/launcher.exe".
Proof.
  apply (script_in_executable_directory "C:/ros/bin/launcher.exe"
           "C:/ros/bin\mover.py").
  reflexivity.
Defined.
